(** * First-person player controller: keyboard state, per-frame movement,
      jump and camera follow

    The repository holds two near-duplicate scene files: [src/app/page.tsx]
    (module [Page] below) and a refactored copy with typed configuration and a
    [useKeyboardControls] hook (module [Game] below).  JavaScript numbers are
    IEEE-754 binary64 values, modelled by the primitive floats of the kernel;
    the React state object holding the key flags is a finite map from property
    names to booleans. *)

From Stdlib Require Import Floats ZArith Bool Ascii String.
From stdpp Require Import gmap strings list fin_maps pretty.

Set Warnings "-inexact-float".

(** ** The host language *)

Module Js.

(** [Number(v)] for the values a flag property can hold: a boolean, or
    [undefined] when the property is absent. *)
Definition Number (v : option bool) : float :=
  match v with
  | Some true => 1%float
  | Some false => 0%float
  | None => nan
  end.

(** Truthiness of a flag property ([undefined] is falsy). *)
Definition truthy (v : option bool) : bool :=
  match v with
  | Some b => b
  | None => false
  end.

(** [a || b] on numbers: [b] when [a] is falsy (NaN, +0 or -0). *)
Definition or_else (a b : float) : float :=
  if is_nan a || (a =? 0)%float then b else a.

(** [String.prototype.toLowerCase], on the ASCII letters. *)
Definition lower_ascii (c : ascii) : ascii :=
  let n := N_of_ascii c in
  if ((65 <=? n) && (n <=? 90))%N then ascii_of_N (n + 32) else c.

Fixpoint toLowerCase (s : string) : string :=
  match s with
  | EmptyString => EmptyString
  | String c rest => String (lower_ascii c) (toLowerCase rest)
  end.

(** The property names every object inherits from [Object.prototype]. *)
Definition Object_prototype : list string :=
  [ "constructor"; "__defineGetter__"; "__defineSetter__"; "hasOwnProperty";
    "__lookupGetter__"; "__lookupSetter__"; "isPrototypeOf";
    "propertyIsEnumerable"; "toString"; "valueOf"; "__proto__";
    "toLocaleString" ]%string.

(** [key in obj] for a plain object: an own property or an inherited one. *)
Definition has_property (key : string) (obj : gmap string bool) : bool :=
  bool_decide (is_Some (obj !! key)) || bool_decide (key ∈ Object_prototype).

(** [Math.cos] and [Math.sin] are implementation-approximated; the language
    fixes their value at zero. *)
Record Math := {
  cos : float -> float;
  sin : float -> float;
  cos_zero : cos 0%float = 1%float;
  sin_zero : sin 0%float = 0%float
}.

End Js.

(** ** The vector library (three.js) *)

Module THREE.

Local Open Scope float_scope.

Inductive EulerOrder := XYZ | YXZ | ZXY | ZYX | YZX | XZY.

Module Euler.
Record t := mk { x : float; y : float; z : float; order : EulerOrder }.
End Euler.

Module Quaternion.
Record t := mk { x : float; y : float; z : float; w : float }.

(** [Quaternion.setFromEuler]. *)
Definition setFromEuler (M : Js.Math) (euler : Euler.t) : t :=
  let x := Euler.x euler in
  let y := Euler.y euler in
  let z := Euler.z euler in
  let c1 := Js.cos M (x / 2) in
  let c2 := Js.cos M (y / 2) in
  let c3 := Js.cos M (z / 2) in
  let s1 := Js.sin M (x / 2) in
  let s2 := Js.sin M (y / 2) in
  let s3 := Js.sin M (z / 2) in
  match Euler.order euler with
  | XYZ => mk (s1 * c2 * c3 + c1 * s2 * s3) (c1 * s2 * c3 - s1 * c2 * s3)
              (c1 * c2 * s3 + s1 * s2 * c3) (c1 * c2 * c3 - s1 * s2 * s3)
  | YXZ => mk (s1 * c2 * c3 + c1 * s2 * s3) (c1 * s2 * c3 - s1 * c2 * s3)
              (c1 * c2 * s3 - s1 * s2 * c3) (c1 * c2 * c3 + s1 * s2 * s3)
  | ZXY => mk (s1 * c2 * c3 - c1 * s2 * s3) (c1 * s2 * c3 + s1 * c2 * s3)
              (c1 * c2 * s3 + s1 * s2 * c3) (c1 * c2 * c3 - s1 * s2 * s3)
  | ZYX => mk (s1 * c2 * c3 - c1 * s2 * s3) (c1 * s2 * c3 + s1 * c2 * s3)
              (c1 * c2 * s3 - s1 * s2 * c3) (c1 * c2 * c3 + s1 * s2 * s3)
  | YZX => mk (s1 * c2 * c3 + c1 * s2 * s3) (c1 * s2 * c3 + s1 * c2 * s3)
              (c1 * c2 * s3 - s1 * s2 * c3) (c1 * c2 * c3 - s1 * s2 * s3)
  | XZY => mk (s1 * c2 * c3 - c1 * s2 * s3) (c1 * s2 * c3 - s1 * c2 * s3)
              (c1 * c2 * s3 + s1 * s2 * c3) (c1 * c2 * c3 + s1 * s2 * s3)
  end.

(** All four components are finite numbers. *)
Definition finite (q : t) : bool :=
  is_finite (x q) && is_finite (y q) && is_finite (z q) && is_finite (w q).
End Quaternion.

Module Vector3.
Record t := mk { x : float; y : float; z : float }.

(** [new THREE.Vector3()]. *)
Definition new : t := mk 0 0 0.

Definition set (this : t) (x y z : float) : t := mk x y z.

Definition subVectors (this a b : t) : t :=
  mk (x a - x b) (y a - y b) (z a - z b).

Definition length (this : t) : float :=
  sqrt (x this * x this + y this * y this + z this * z this).

Definition multiplyScalar (this : t) (scalar : float) : t :=
  mk (x this * scalar) (y this * scalar) (z this * scalar).

Definition divideScalar (this : t) (scalar : float) : t :=
  multiplyScalar this (1 / scalar).

Definition normalize (this : t) : t :=
  divideScalar this (Js.or_else (length this) 1).

(** [applyQuaternion], in the cross-product form of the current library:
    t = 2 * cross(q.xyz, v), then v + q.w * t + cross(q.xyz, t). *)
Definition applyQuaternion (this : t) (q : Quaternion.t) : t :=
  let vx := x this in
  let vy := y this in
  let vz := z this in
  let qx := Quaternion.x q in
  let qy := Quaternion.y q in
  let qz := Quaternion.z q in
  let qw := Quaternion.w q in
  let tx := 2 * (qy * vz - qz * vy) in
  let ty := 2 * (qz * vx - qx * vz) in
  let tz := 2 * (qx * vy - qy * vx) in
  mk (vx + qw * tx + qy * tz - qz * ty)
     (vy + qw * ty + qz * tx - qx * tz)
     (vz + qw * tz + qx * ty - qy * tx).

Definition applyEuler (M : Js.Math) (this : t) (euler : Euler.t) : t :=
  applyQuaternion this (Quaternion.setFromEuler M euler).

Definition copy (this v : t) : t := mk (x v) (y v) (z v).
End Vector3.

End THREE.

(** ** The camera of the renderer *)

Module Camera.
Record t := mk { position : THREE.Vector3.t; rotation : THREE.Euler.t }.
End Camera.

(** ** The physics binding (@react-three/cannon)

    The body lives in a worker.  [api.velocity.set] posts a command to it,
    [api.position.subscribe] and [api.velocity.subscribe] register a callback
    under a fresh id and return the function that removes it again. *)

Module Cannon.

(** A JavaScript array of three numbers. *)
Definition Triplet : Type := float * float * float.

Definition at0 (t : Triplet) : float := t.1.1.
Definition at1 (t : Triplet) : float := t.1.2.
Definition at2 (t : Triplet) : float := t.2.

Inductive Topic := position | velocity.

Record Api := mk {
  incrementingId : nat;
  subscriptions : gmap nat Topic;
  (** the [setVelocity] commands posted so far, the newest first *)
  velocity_commands : list Triplet
}.

Definition subscribe (topic : Topic) (api : Api) : Api * nat :=
  let id := incrementingId api in
  (mk (S id) (<[id := topic]> (subscriptions api)) (velocity_commands api), id).

Definition unsubscribe (id : nat) (api : Api) : Api :=
  mk (incrementingId api) (delete id (subscriptions api)) (velocity_commands api).

Definition velocity_set (x y z : float) (api : Api) : Api :=
  mk (incrementingId api) (subscriptions api) ((x, y, z) :: velocity_commands api).

End Cannon.

(** ** Effects of a component (React)

    An effect runs when the component is created and may return a cleanup;
    the cleanups that were returned run when the component is torn down. *)

Module React.

Definition Cleanup : Type := Cannon.Api -> Cannon.Api.
Definition Effect : Type := Cannon.Api -> Cannon.Api * option Cleanup.

Fixpoint mount (effects : list Effect) (api : Cannon.Api)
    : Cannon.Api * list Cleanup :=
  match effects with
  | [] => (api, [])
  | effect :: rest =>
      let '(api1, cleanup) := effect api in
      let '(api2, cleanups) := mount rest api1 in
      (api2, match cleanup with
             | Some c => c :: cleanups
             | None => cleanups
             end)
  end.

Definition unmount (cleanups : list Cleanup) (api : Cannon.Api) : Cannon.Api :=
  foldl (fun a c => c a) api cleanups.

(** Creation of the component followed by its teardown. *)
Definition lifetime (effects : list Effect) (api : Cannon.Api) : Cannon.Api :=
  let '(api1, cleanups) := mount effects api in unmount cleanups api1.

End React.

(** The two refs of [Player]: the last position and the last velocity the
    physics engine reported. *)
Record Refs := mkRefs {
  position_current : Cannon.Triplet;
  velocity_current : Cannon.Triplet
}.

(** The state both files start from. *)
Definition initialKeys : gmap string bool :=
  <["w" := false]> (<["s" := false]> (<["a" := false]> (<["d" := false]>
    (<["space" := false]> ∅)))).

(** The state object with the five flags set as given. *)
Definition key_state (w s a d space : bool) : gmap string bool :=
  <["w" := w]> (<["s" := s]> (<["a" := a]> (<["d" := d]>
    (<["space" := space]> ∅)))).

(** ** The refactored scene file (typed configuration, keyboard hook) *)

Module Game.

Import THREE.

Module PLAYER_CONFIG.
Definition mass : float := 1.
Definition radius : float := 0.3.
Definition spawnPosition : Cannon.Triplet := (0, 1, 0)%float.
Definition moveSpeed : float := 5.
Definition jumpForce : float := 5.
Definition jumpThreshold : float := 0.1.
End PLAYER_CONFIG.

(** [useKeyboardControls]: the key-down listener.  [keys] is the state the
    listener closed over, [prev] the state the update is applied to. *)
Definition handleKeyDown (keys : gmap string bool) (event_key : string)
    (prev : gmap string bool) : gmap string bool :=
  let key := Js.toLowerCase event_key in
  if String.eqb key " " then <["space" := true]> prev
  else if Js.has_property key keys then <[key := true]> prev
  else prev.

Definition handleKeyUp (keys : gmap string bool) (event_key : string)
    (prev : gmap string bool) : gmap string bool :=
  let key := Js.toLowerCase event_key in
  if String.eqb key " " then <["space" := false]> prev
  else if Js.has_property key keys then <[key := false]> prev
  else prev.

(** The subscription callbacks. *)
Definition onPosition (p : Cannon.Triplet) (refs : Refs) : Refs :=
  mkRefs p (velocity_current refs).

Definition onVelocity (v : Cannon.Triplet) (refs : Refs) : Refs :=
  mkRefs (position_current refs) v.

(** The effect that subscribes to the physics updates. *)
Definition subscribe_effect : React.Effect := fun api =>
  let '(api, unsubscribePos) := Cannon.subscribe Cannon.position api in
  let '(api, unsubscribeVel) := Cannon.subscribe Cannon.velocity api in
  (api, Some (fun api =>
                Cannon.unsubscribe unsubscribeVel
                  (Cannon.unsubscribe unsubscribePos api))).

Definition effects : list React.Effect := [subscribe_effect].

(** The direction of the frame callback after [normalize], before it is
    scaled and rotated. *)
Definition movement_direction (keys : gmap string bool) : Vector3.t :=
  let direction := Vector3.new in
  let frontVector := Vector3.new in
  let sideVector := Vector3.new in
  let frontVector :=
    Vector3.set frontVector 0 0
      (Js.Number (keys !! "s") - Js.Number (keys !! "w"))%float in
  let sideVector :=
    Vector3.set sideVector
      (Js.Number (keys !! "a") - Js.Number (keys !! "d"))%float 0 0 in
  Vector3.normalize (Vector3.subVectors direction frontVector sideVector).

Definition isGrounded (refs : Refs) : bool :=
  (abs (Cannon.at1 (velocity_current refs)) <? PLAYER_CONFIG.jumpThreshold)%float.

(** The callback handed to [useFrame]. *)
Definition useFrame_callback (M : Js.Math) (keys : gmap string bool)
    (refs : Refs) (camera : Camera.t) (api : Cannon.Api)
    : Camera.t * Cannon.Api :=
  let direction :=
    Vector3.applyEuler M
      (Vector3.multiplyScalar (movement_direction keys) PLAYER_CONFIG.moveSpeed)
      (Camera.rotation camera) in
  let api :=
    Cannon.velocity_set (Vector3.x direction)
      (Cannon.at1 (velocity_current refs)) (Vector3.z direction) api in
  let api :=
    if Js.truthy (keys !! "space") && isGrounded refs
    then Cannon.velocity_set (Cannon.at0 (velocity_current refs))
           PLAYER_CONFIG.jumpForce (Cannon.at2 (velocity_current refs)) api
    else api in
  let '(p0, p1, p2) := position_current refs in
  (Camera.mk (Vector3.copy (Camera.position camera) (Vector3.mk p0 p1 p2))
     (Camera.rotation camera),
   api).

End Game.

(** ** [src/app/page.tsx] *)

Module Page.

Import THREE.

Definition handleKeyDown (event_key : string) (prev : gmap string bool)
    : gmap string bool :=
  let key := Js.toLowerCase event_key in
  if String.eqb key " " then <["space" := true]> prev
  else <[key := true]> prev.

Definition handleKeyUp (event_key : string) (prev : gmap string bool)
    : gmap string bool :=
  let key := Js.toLowerCase event_key in
  if String.eqb key " " then <["space" := false]> prev
  else <[key := false]> prev.

Definition onPosition (p : Cannon.Triplet) (refs : Refs) : Refs :=
  mkRefs p (velocity_current refs).

Definition onVelocity (v : Cannon.Triplet) (refs : Refs) : Refs :=
  mkRefs (position_current refs) v.

(** The two subscribing effects: their bodies return nothing. *)
Definition position_effect : React.Effect := fun api =>
  ((Cannon.subscribe Cannon.position api).1, None).

Definition velocity_effect : React.Effect := fun api =>
  ((Cannon.subscribe Cannon.velocity api).1, None).

Definition effects : list React.Effect := [position_effect; velocity_effect].

(** The three vectors are allocated by the render and overwritten by every
    frame: [set] and [subVectors] assign all three components. *)
Definition movement_direction (keys : gmap string bool) : Vector3.t :=
  let direction := Vector3.new in
  let frontVector := Vector3.new in
  let sideVector := Vector3.new in
  let frontVector :=
    Vector3.set frontVector 0 0
      (Js.Number (keys !! "s") - Js.Number (keys !! "w"))%float in
  let sideVector :=
    Vector3.set sideVector
      (Js.Number (keys !! "a") - Js.Number (keys !! "d"))%float 0 0 in
  Vector3.normalize (Vector3.subVectors direction frontVector sideVector).

Definition useFrame_callback (M : Js.Math) (keys : gmap string bool)
    (refs : Refs) (camera : Camera.t) (api : Cannon.Api)
    : Camera.t * Cannon.Api :=
  let direction :=
    Vector3.applyEuler M
      (Vector3.multiplyScalar (movement_direction keys) 5)
      (Camera.rotation camera) in
  let api :=
    Cannon.velocity_set (Vector3.x direction)
      (Cannon.at1 (velocity_current refs)) (Vector3.z direction) api in
  let api :=
    if Js.truthy (keys !! "space")
       && (abs (Cannon.at1 (velocity_current refs)) <? 0.1)%float
    then Cannon.velocity_set (Cannon.at0 (velocity_current refs))
           5 (Cannon.at2 (velocity_current refs)) api
    else api in
  let '(p0, p1, p2) := position_current refs in
  (Camera.mk (Vector3.copy (Camera.position camera) (Vector3.mk p0 p1 p2))
     (Camera.rotation camera),
   api).

End Page.

(** ** The running scene

    What happens to a mounted [Player] between two renders: key events reach
    the listeners, the physics engine calls the subscribers, the mouse-look
    controller turns the camera, and the renderer calls the frame callback.
    A key event is followed by the render that refreshes the closures, so the
    listeners and the frame callback see the current state object. *)

Module Scene.

Record Component := mkComponent {
  keyDown : gmap string bool -> string -> gmap string bool -> gmap string bool;
  keyUp : gmap string bool -> string -> gmap string bool -> gmap string bool;
  positionSubscriber : Cannon.Triplet -> Refs -> Refs;
  velocitySubscriber : Cannon.Triplet -> Refs -> Refs;
  frame : Js.Math -> gmap string bool -> Refs -> Camera.t -> Cannon.Api
          -> Camera.t * Cannon.Api
}.

Definition game : Component :=
  mkComponent Game.handleKeyDown Game.handleKeyUp
    Game.onPosition Game.onVelocity Game.useFrame_callback.

Definition page : Component :=
  mkComponent (fun _ => Page.handleKeyDown) (fun _ => Page.handleKeyUp)
    Page.onPosition Page.onVelocity Page.useFrame_callback.

Record State := mkState {
  keys : gmap string bool;
  refs : Refs;
  camera : Camera.t;
  api : Cannon.Api
}.

Inductive Event :=
| KeyDown (key : string)
| KeyUp (key : string)
| PositionReport (p : Cannon.Triplet)
| VelocityReport (v : Cannon.Triplet)
| MouseLook (rotation : THREE.Euler.t)
| Frame.

Definition step (M : Js.Math) (C : Component) (σ : State) (e : Event) : State :=
  match e with
  | KeyDown key =>
      mkState (keyDown C (keys σ) key (keys σ)) (refs σ) (camera σ) (api σ)
  | KeyUp key =>
      mkState (keyUp C (keys σ) key (keys σ)) (refs σ) (camera σ) (api σ)
  | PositionReport p =>
      mkState (keys σ) (positionSubscriber C p (refs σ)) (camera σ) (api σ)
  | VelocityReport v =>
      mkState (keys σ) (velocitySubscriber C v (refs σ)) (camera σ) (api σ)
  | MouseLook rotation =>
      mkState (keys σ) (refs σ)
        (Camera.mk (Camera.position (camera σ)) rotation) (api σ)
  | Frame =>
      let '(camera', api') := frame C M (keys σ) (refs σ) (camera σ) (api σ) in
      mkState (keys σ) (refs σ) camera' api'
  end.

Definition run (M : Js.Math) (C : Component) (events : list Event) (σ : State)
    : State :=
  foldl (step M C) σ events.

(** The commands a frame posted, in the order it posted them: what
    [after] holds beyond [before]. *)
Definition posted (before after : Cannon.Api) : list Cannon.Triplet :=
  reverse (take (length (Cannon.velocity_commands after)
                 - length (Cannon.velocity_commands before))
             (Cannon.velocity_commands after)).

(** The commands of one frame taken in state [σ]. *)
Definition frame_commands (M : Js.Math) (C : Component) (σ : State)
    : list Cannon.Triplet :=
  posted (api σ) (api (step M C σ Frame)).

(** The position the engine reported last in a run of events ([start] when
    it reported none), and the same for the velocity. *)
Definition last_position (events : list Event) (start : Cannon.Triplet)
    : Cannon.Triplet :=
  foldl (fun last e => match e with PositionReport p => p | _ => last end)
    start events.

Definition last_velocity (events : list Event) (start : Cannon.Triplet)
    : Cannon.Triplet :=
  foldl (fun last e => match e with VelocityReport v => v | _ => last end)
    start events.

End Scene.

(** ** A host to run the model on

    Cosine and sine as truncated power series: exact at zero, close to the
    true functions for the small angles of the examples below. *)

Definition series_cos (x : float) : float :=
  (let x2 := x * x in
   1 - x2 / 2 * (1 - x2 / 12 * (1 - x2 / 30 * (1 - x2 / 56))))%float.

Definition series_sin (x : float) : float :=
  (let x2 := x * x in
   x * (1 - x2 / 6 * (1 - x2 / 20 * (1 - x2 / 42 * (1 - x2 / 72)))))%float.

Definition series_math : Js.Math :=
  {| Js.cos := series_cos; Js.sin := series_sin;
     Js.cos_zero := eq_refl; Js.sin_zero := eq_refl |}.

(** ** The vocabulary of the properties *)

(** The five flags and, for each, its property in the state object and the
    (lower-cased) key that drives it. *)
Inductive Flag := forward | backward | strafe_left | strafe_right | jump.

Definition flag_property (f : Flag) : string :=
  match f with
  | forward => "w"
  | backward => "s"
  | strafe_left => "a"
  | strafe_right => "d"
  | jump => "space"
  end.

Definition flag_key (f : Flag) : string :=
  match f with
  | forward => "w"
  | backward => "s"
  | strafe_left => "a"
  | strafe_right => "d"
  | jump => " "
  end.

(** A state object that carries the five flags. *)
Definition has_flags (keys : gmap string bool) : Prop :=
  forall f, is_Some (keys !! flag_property f).

(** The two axis values: backward minus forward, left minus right. *)
Definition front_axis (keys : gmap string bool) : float :=
  (Js.Number (keys !! "s") - Js.Number (keys !! "w"))%float.

Definition side_axis (keys : gmap string bool) : float :=
  (Js.Number (keys !! "a") - Js.Number (keys !! "d"))%float.

(** The direction as the specification writes it: the front axis on x, the
    side axis on z. *)
Definition stated_direction (keys : gmap string bool) : THREE.Vector3.t :=
  THREE.Vector3.normalize (THREE.Vector3.mk (front_axis keys) 0 (side_axis keys)).

(** The direction with right minus left on x and the front axis on z. *)
Definition axes_direction (keys : gmap string bool) : THREE.Vector3.t :=
  THREE.Vector3.normalize
    (THREE.Vector3.mk
       (Js.Number (keys !! "d") - Js.Number (keys !! "a"))%float 0
       (front_axis keys)).

(** The specification's reading of the jump command: the second command of
    the frame keeps the x and z of the first. *)
Definition jump_keeps_movement (commands : list Cannon.Triplet) : Prop :=
  match commands with
  | [movement; jumping] =>
      Cannon.at0 jumping = Cannon.at0 movement
      /\ Cannon.at2 jumping = Cannon.at2 movement
  | _ => False
  end.

(** The camera before the mouse has turned it, and an idle physics binding. *)
Definition identity_rotation (order : THREE.EulerOrder) : THREE.Euler.t :=
  THREE.Euler.mk 0 0 0 order.

Definition camera0 : Camera.t :=
  Camera.mk (THREE.Vector3.mk 0 1 0) (identity_rotation THREE.XYZ).

Definition api0 : Cannon.Api := Cannon.mk 0 ∅ [].

(** A number that is +0 or -0, in terms of its IEEE-754 reading. *)
Definition is_zero_float (a : float) : Prop :=
  exists s, Prim2SF a = S754_zero s.

(** The two commands a frame can post: the horizontal movement computed from
    the keys and the camera, and the jump. *)
Definition movement_command (M : Js.Math) (keys : gmap string bool)
    (refs : Refs) (camera : Camera.t) : Cannon.Triplet :=
  let direction :=
    THREE.Vector3.applyEuler M
      (THREE.Vector3.multiplyScalar (Game.movement_direction keys) 5)
      (Camera.rotation camera) in
  (THREE.Vector3.x direction, Cannon.at1 (velocity_current refs),
   THREE.Vector3.z direction).

Definition jump_command (refs : Refs) : Cannon.Triplet :=
  (Cannon.at0 (velocity_current refs), 5%float,
   Cannon.at2 (velocity_current refs)).

(** [new THREE.Vector3(...t)]. *)
Definition vector_of (t : Cannon.Triplet) : THREE.Vector3.t :=
  THREE.Vector3.mk (Cannon.at0 t) (Cannon.at1 t) (Cannon.at2 t).

(** ** Concrete frames *)

(** Standing still, forward and jump pressed together. *)
Definition standing_jump : Scene.State :=
  Scene.mkState (key_state true false false false true)
    (mkRefs (0, 1, 0)%float (0, 0, 0)%float) camera0 api0.

(** The camera turned by the mouse (yaw 0.5, pitch -0.2). *)
Definition turned_camera : Camera.t :=
  Camera.mk (THREE.Vector3.mk 0 1 0) (THREE.Euler.mk (-0.2) 0.5 0 THREE.YXZ).

(** Moving on the ground with jump pressed: vertical velocity 0.05. *)
Definition grounded_jump : Scene.State :=
  Scene.mkState (key_state true false false false true)
    (mkRefs (0, 1, 0)%float (1.5, 0.05, -2)%float) turned_camera api0.

(** Falling with jump pressed: vertical velocity -3. *)
Definition falling_jump : Scene.State :=
  Scene.mkState (key_state false false false false true)
    (mkRefs (0, 4, 0)%float (1.5, -3, -2)%float) turned_camera api0.

(** Falling with every key released. *)
Definition falling_idle : Scene.State :=
  Scene.mkState initialKeys
    (mkRefs (0, 4, 0)%float (1.5, -1.2, -2)%float) turned_camera api0.

(** ** Effects that run again

    React runs an effect again when its dependencies changed, and after every
    render when it has no dependency list; the cleanup of the previous run
    goes first. *)

Module Hooks.

Section World.

Context {W : Type}.

Definition Cleanup : Type := W -> W.
Definition Effect : Type := W -> W * option Cleanup.

(** The cleanup an effect slot holds, applied to the world. *)
Definition teardown (slot : W * option Cleanup) : W :=
  match slot.2 with
  | Some cleanup => cleanup slot.1
  | None => slot.1
  end.

(** One more run of the effect. *)
Definition commit (effect : Effect) (slot : W * option Cleanup)
    : W * option Cleanup :=
  effect (teardown slot).

(** The first run followed by [n] more. *)
Definition commits (effect : Effect) (n : nat) (w : W) : W * option Cleanup :=
  Nat.iter n (commit effect) (effect w).

End World.

End Hooks.

(** ** The window and its key listeners

    A listener is a function object; the functions an effect creates are told
    apart by the order of their creation. *)

Module Window.

Record t := mk {
  (** the number of listener functions created so far *)
  functions : nat;
  (** the registered (event type, listener) pairs, the oldest first *)
  listeners : list (string * nat)
}.

Definition addEventListener (type : string) (listener : nat) (w : t) : t :=
  if bool_decide ((type, listener) ∈ listeners w) then w
  else mk (functions w) (listeners w ++ [(type, listener)]).

Definition removeEventListener (type : string) (listener : nat) (w : t) : t :=
  mk (functions w) (filter (fun l => l <> (type, listener)) (listeners w)).

(** No function that is yet to be created is registered. *)
Definition fresh (w : t) : Prop :=
  forall type listener, (type, listener) ∈ listeners w -> listener < functions w.

End Window.

(** The effect that installs the two key listeners; its body is the same in
    both files.  [src/app/page.tsx] gives it an empty dependency list (one
    run), the keyboard hook gives it none (a run after every render). *)
Definition keyboard_effect : @Hooks.Effect Window.t := fun w =>
  let handleKeyDown := Window.functions w in
  let handleKeyUp := S (Window.functions w) in
  let w := Window.mk (S (S (Window.functions w))) (Window.listeners w) in
  let w := Window.addEventListener "keydown" handleKeyDown w in
  let w := Window.addEventListener "keyup" handleKeyUp w in
  (w, Some (fun w =>
              Window.removeEventListener "keyup" handleKeyUp
                (Window.removeEventListener "keydown" handleKeyDown w))).

(** Ids are handed out in increasing order: none in use reaches the counter. *)
Definition fresh_ids (api : Cannon.Api) : Prop :=
  forall id, is_Some (Cannon.subscriptions api !! id) ->
             id < Cannon.incrementingId api.

(** ** The scenery *)

Module Scenery.

Record Descriptor := mkDescriptor {
  position : Cannon.Triplet;
  size : Cannon.Triplet;
  color : string
}.

Inductive BodyType := Dynamic | Kinematic | Static.

(** What a box component declares: the props of [useBox] and the mesh. *)
Record Box := mkBox {
  mass : option float;
  type : option BodyType;
  body_position : Cannon.Triplet;
  args : Cannon.Triplet;
  boxGeometry : Cannon.Triplet;
  meshStandardMaterial : string
}.

Definition DynamicBox (d : Descriptor) : Box :=
  mkBox (Some 0.6%float) None (position d) (size d) (size d) (color d).

Definition StaticPlatform (d : Descriptor) : Box :=
  mkBox None (Some Static) (position d) (size d) (size d) (color d).

Record EnvironmentData := mkData {
  platforms : list Descriptor;
  boxes : list Descriptor;
  walls : list Descriptor
}.

Definition ENVIRONMENT_DATA : EnvironmentData :=
  mkData
    [ mkDescriptor (5, 0, -5)%float (4, 0.5, 4)%float "#8a5a44";
      mkDescriptor (-5, 1, -8)%float (4, 0.5, 4)%float "#8a5a44";
      mkDescriptor (0, 2, -15)%float (8, 0.5, 4)%float "#8a5a44";
      mkDescriptor (10, 3, -10)%float (4, 0.5, 4)%float "#8a5a44";
      mkDescriptor (-10, 4, -5)%float (4, 0.5, 4)%float "#8a5a44" ]
    [ mkDescriptor (2, 2, -3)%float (1, 1, 1)%float "#4d4dff";
      mkDescriptor (-2, 2, -3)%float (1, 1, 1)%float "#ff4d4d";
      mkDescriptor (0, 2, -6)%float (1, 1, 1)%float "#4dff4d";
      mkDescriptor (4, 5, -4)%float (0.8, 0.8, 0.8)%float "#ffff4d";
      mkDescriptor (-4, 5, -4)%float (0.8, 0.8, 0.8)%float "#ff4dff" ]
    [ mkDescriptor (15, 5, 0)%float (1, 10, 30)%float "#555555";
      mkDescriptor (-15, 5, 0)%float (1, 10, 30)%float "#555555";
      mkDescriptor (0, 5, -25)%float (30, 10, 1)%float "#555555";
      mkDescriptor (0, 5, 15)%float (30, 10, 1)%float "#555555" ].

(** [Environment]: the children it renders, each with its React key. *)
Definition Environment (data : EnvironmentData) : list (string * Box) :=
  imap (fun i platform => ("platform-" +:+ pretty i, StaticPlatform platform))
    (platforms data)
  ++ imap (fun i box => ("box-" +:+ pretty i, DynamicBox box)) (boxes data)
  ++ imap (fun i wall => ("wall-" +:+ pretty i, StaticPlatform wall))
       (walls data).

End Scenery.

(** ** More vocabulary *)

(** The key events that write the flag [f]: those whose lower-cased key is
    the key of the flag or the name of its property. *)
Definition drives (f : Flag) (event_key : string) : bool :=
  bool_decide (Js.toLowerCase event_key = flag_key f)
  || bool_decide (Js.toLowerCase event_key = flag_property f).

(** What the last key event that drives [f] says ([start] when there is none). *)
Definition last_key_event (f : Flag) (events : list Scene.Event)
    (start : option bool) : option bool :=
  foldl (fun last e =>
           match e with
           | Scene.KeyDown key => if drives f key then Some true else last
           | Scene.KeyUp key => if drives f key then Some false else last
           | _ => last
           end) start events.

(** A key event whose lower-cased key is a name inherited from
    [Object.prototype]. *)
Definition inherited_key (e : Scene.Event) : bool :=
  match e with
  | Scene.KeyDown key | Scene.KeyUp key =>
      bool_decide (Js.toLowerCase key ∈ Js.Object_prototype)
  | _ => false
  end.

(** The scene as the player spawns. *)
Definition spawned : Scene.State :=
  Scene.mkState initialKeys (mkRefs (0, 0, 0)%float (0, 0, 0)%float) camera0 api0.

(** The orientation the mouse-look controller gave the camera last in a run of
    events ([start] when it gave none). *)
Definition last_mouse_look (events : list Scene.Event) (start : THREE.Euler.t)
    : THREE.Euler.t :=
  foldl (fun last e => match e with Scene.MouseLook r => r | _ => last end)
    start events.

(** A window with two listeners of other components, and a physics binding
    with one subscription of another body. *)
Definition busy_window : Window.t :=
  Window.mk 7 [("resize", 2); ("keydown", 5)].

Definition busy_api : Cannon.Api :=
  Cannon.mk 4 (<[3 := Cannon.position]> ∅) [].

(** The number of frames in a run of events. *)
Definition is_frame (e : Scene.Event) : bool :=
  match e with
  | Scene.Frame => true
  | _ => false
  end.

Definition frames (events : list Scene.Event) : nat :=
  length (filter (fun e => is_frame e = true) events).

(** * Properties *)

(** ** Facts about binary64 arithmetic *)

Section FloatFacts.

Local Open Scope float_scope.

Lemma SFcompare_antisym (a b : spec_float) :
  SFcompare b a = CompOpp <$> SFcompare a b.
Proof.
  destruct a as [sa|sa| |sa ma ea], b as [sb|sb| |sb mb eb]; simpl;
    try reflexivity;
    try (destruct sa; reflexivity); try (destruct sb; reflexivity);
    try (destruct sa, sb; reflexivity).
  destruct sa, sb; simpl; try reflexivity; f_equal;
    rewrite (Z.compare_antisym ea eb);
    destruct (ea ?= eb)%Z; simpl; try reflexivity;
    change (PosDef.Pos.compare_cont Eq mb ma) with (Pos.compare mb ma);
    change (PosDef.Pos.compare_cont Eq ma mb) with (Pos.compare ma mb);
    rewrite (Pos.compare_antisym ma mb);
    destruct (ma ?= mb)%positive; reflexivity.
Qed.

Lemma leb_not_ltb (a b : float) : (a <=? b) = true -> (b <? a) = false.
Proof.
  rewrite leb_spec, ltb_spec. unfold SFleb, SFltb.
  rewrite (SFcompare_antisym (Prim2SF a) (Prim2SF b)).
  destruct (SFcompare (Prim2SF a) (Prim2SF b)) as [[]|]; simpl; congruence.
Qed.

Lemma finite_cases (a : float) :
  is_finite a = true ->
  (exists s, Prim2SF a = S754_zero s)
  \/ (exists s m e, Prim2SF a = S754_finite s m e).
Proof.
  unfold is_finite, is_nan, is_infinity.
  rewrite !FloatAxioms.eqb_spec, abs_spec.
  change (Prim2SF infinity) with (S754_infinity false).
  destruct (Prim2SF a) as [s|[]| |s m e]; simpl; eauto; discriminate.
Qed.

Lemma mul_finite_zero (a z : float) :
  is_finite a = true -> is_zero_float z -> is_zero_float (a * z).
Proof.
  intros Ha [sz Hz]. unfold is_zero_float. rewrite mul_spec, Hz.
  destruct (finite_cases a Ha) as [[s ->]|(s & m & e & ->)]; simpl; eauto.
Qed.

Lemma sub_zero_zero (a b : float) :
  is_zero_float a -> is_zero_float b -> is_zero_float (a - b).
Proof.
  intros [sa Ha] [sb Hb]. unfold is_zero_float. rewrite sub_spec, Ha, Hb.
  destruct sa, sb; simpl; eauto.
Qed.

Lemma add_pzero_zero (b : float) : is_zero_float b -> 0 + b = 0.
Proof.
  intros [sb Hb]. apply Prim2SF_inj. rewrite add_spec, Hb.
  destruct sb; reflexivity.
Qed.

Lemma sub_pzero_zero (b : float) : is_zero_float b -> 0 - b = 0.
Proof.
  intros [sb Hb]. apply Prim2SF_inj. rewrite sub_spec, Hb.
  destruct sb; reflexivity.
Qed.

Lemma pzero_is_zero : is_zero_float 0.
Proof. exists false. reflexivity. Qed.

(** Rotating the zero vector by a finite quaternion gives the zero vector. *)
Lemma rotate_zero (q : THREE.Quaternion.t) :
  THREE.Quaternion.finite q = true ->
  THREE.Vector3.applyQuaternion (THREE.Vector3.mk 0 0 0) q
  = THREE.Vector3.mk 0 0 0.
Proof.
  destruct q as [qx qy qz qw]. unfold THREE.Quaternion.finite. simpl.
  rewrite !andb_true_iff. intros [[[Hx Hy] Hz] Hw].
  pose proof pzero_is_zero as H0.
  assert (H2 : is_finite 2 = true) by reflexivity.
  unfold THREE.Vector3.applyQuaternion. simpl.
  assert (T : forall a b, is_finite a = true -> is_finite b = true ->
              is_zero_float (2 * (a * 0 - b * 0))).
  { intros a b Ha Hb. apply mul_finite_zero; [exact H2|].
    apply sub_zero_zero; apply mul_finite_zero; assumption. }
  assert (R : forall w t a u b v,
             is_finite w = true -> is_finite a = true -> is_finite b = true ->
             is_zero_float t -> is_zero_float u -> is_zero_float v ->
             0 + w * t + a * u - b * v = 0).
  { intros w t a u b v Hw' Ha Hb Ht Hu Hv.
    rewrite (add_pzero_zero (w * t)) by (apply mul_finite_zero; assumption).
    rewrite (add_pzero_zero (a * u)) by (apply mul_finite_zero; assumption).
    apply sub_pzero_zero, mul_finite_zero; assumption. }
  f_equal; apply R; auto.
Qed.

End FloatFacts.

(** ** The commands of a frame *)

Section FrameFacts.

Import THREE.

Lemma posted_app (before after : Cannon.Api) (new : list Cannon.Triplet) :
  Cannon.velocity_commands after = new ++ Cannon.velocity_commands before ->
  Scene.posted before after = reverse new.
Proof.
  intros H. unfold Scene.posted. rewrite H, length_app.
  replace (length new + length (Cannon.velocity_commands before)
           - length (Cannon.velocity_commands before)) with (length new) by lia.
  by rewrite take_app_length.
Qed.

Lemma page_direction (keys : gmap string bool) :
  Page.movement_direction keys = Game.movement_direction keys.
Proof. reflexivity. Qed.

(** A frame posts the movement command, then the jump command when the
    jump flag is set and the cached vertical velocity is below 0.1. *)
Lemma game_frame_commands (M : Js.Math) (σ : Scene.State) :
  Scene.frame_commands M Scene.game σ
  = movement_command M (Scene.keys σ) (Scene.refs σ) (Scene.camera σ)
    :: (if Js.truthy (Scene.keys σ !! "space")
           && (abs (Cannon.at1 (velocity_current (Scene.refs σ))) <? 0.1)%float
        then [jump_command (Scene.refs σ)] else []).
Proof.
  destruct σ as [keys [[[p0 p1] p2] vel] camera api].
  unfold Scene.frame_commands, Scene.step; simpl.
  unfold Game.useFrame_callback, Game.isGrounded; simpl.
  destruct (Js.truthy (keys !! "space")
            && (abs (Cannon.at1 vel) <? Game.PLAYER_CONFIG.jumpThreshold)%float)
    eqn:E; unfold Game.PLAYER_CONFIG.jumpThreshold in E; rewrite E; simpl.
  - by rewrite (posted_app _ _ [jump_command (mkRefs (p0, p1, p2) vel);
                                movement_command M keys (mkRefs (p0, p1, p2) vel) camera]).
  - by rewrite (posted_app _ _ [movement_command M keys (mkRefs (p0, p1, p2) vel) camera]).
Qed.

Lemma page_frame_commands (M : Js.Math) (σ : Scene.State) :
  Scene.frame_commands M Scene.page σ = Scene.frame_commands M Scene.game σ.
Proof.
  destruct σ as [keys [[[p0 p1] p2] vel] camera api]. reflexivity.
Qed.

Lemma frame_camera (M : Js.Math) (C : Scene.Component) (σ : Scene.State) :
  C = Scene.game \/ C = Scene.page ->
  Camera.position (Scene.camera (Scene.step M C σ Scene.Frame))
  = vector_of (position_current (Scene.refs σ)).
Proof.
  destruct σ as [keys [[[p0 p1] p2] vel] camera api].
  intros [-> | ->]; reflexivity.
Qed.

Lemma step_refs (M : Js.Math) (C : Scene.Component) (σ : Scene.State)
    (e : Scene.Event) :
  C = Scene.game \/ C = Scene.page ->
  Scene.refs (Scene.step M C σ e)
  = mkRefs
      (Scene.last_position [e] (position_current (Scene.refs σ)))
      (Scene.last_velocity [e] (velocity_current (Scene.refs σ))).
Proof.
  destruct σ as [keys [[[p0 p1] p2] vel] camera api].
  intros [-> | ->]; destruct e; reflexivity.
Qed.

Lemma run_refs (M : Js.Math) (C : Scene.Component) (events : list Scene.Event) :
  C = Scene.game \/ C = Scene.page ->
  forall σ,
    Scene.refs (Scene.run M C events σ)
    = mkRefs
        (Scene.last_position events (position_current (Scene.refs σ)))
        (Scene.last_velocity events (velocity_current (Scene.refs σ))).
Proof.
  intros HC. induction events as [|e events IH]; intros σ.
  - by destruct σ as [? [] ? ?].
  - unfold Scene.run in *. simpl. rewrite IH, step_refs by done. reflexivity.
Qed.

End FrameFacts.

(** ** The movement direction *)

Section Direction.

Import THREE.

(** C1, as stated, fails.  With forward alone pressed the frame callback of
    both files computes the direction (0, 0, -1), while
    normalize((backward - forward), 0, (left - right)) is (-1, 0, 0). *)
Lemma stated_direction_fails :
  let keys := key_state true false false false false in
  Game.movement_direction keys = Vector3.mk 0 0 (-1)
  /\ Page.movement_direction keys = Vector3.mk 0 0 (-1)
  /\ stated_direction keys = Vector3.mk (-1) 0 0
  /\ Game.movement_direction keys <> stated_direction keys.
Proof.
  repeat split; try (vm_compute; reflexivity).
  intros H. apply (f_equal (fun v => (Vector3.x v =? 0)%float)) in H.
  vm_compute in H. discriminate H.
Qed.

Ltac float_absurd H :=
  apply (f_equal (fun v => (v =? 0)%float)) in H; vm_compute in H;
  discriminate H.

(** C1 (amended).  For every state of the key flags the direction computed
    before scaling and rotation equals
    normalize((right - left), 0, (backward - forward)), in both files; and it
    is the zero vector when the front axis (backward - forward) and the side
    axis (left - right) are both zero. *)
Theorem movement_direction_axes (keys : gmap string bool) :
  Game.movement_direction keys = axes_direction keys
  /\ Page.movement_direction keys = axes_direction keys
  /\ (front_axis keys = 0%float -> side_axis keys = 0%float ->
      Game.movement_direction keys = Vector3.mk 0 0 0
      /\ Page.movement_direction keys = Vector3.mk 0 0 0).
Proof.
  unfold Page.movement_direction, Game.movement_direction, axes_direction,
    front_axis, side_axis.
  destruct (keys !! "w") as [[]|], (keys !! "s") as [[]|],
    (keys !! "a") as [[]|], (keys !! "d") as [[]|];
    (split; [vm_compute; reflexivity|split; [vm_compute; reflexivity|]]);
    intros Hf Hs;
    first [float_absurd Hf | float_absurd Hs | split; vm_compute; reflexivity].
Qed.

(** All four movement keys held: both axes cancel and the direction is the
    zero vector. *)
Lemma movement_direction_axes_opposing :
  let keys := key_state true true true true false in
  front_axis keys = 0%float /\ side_axis keys = 0%float
  /\ Game.movement_direction keys = Vector3.mk 0 0 0
  /\ Page.movement_direction keys = Vector3.mk 0 0 0.
Proof.
  assert (Hf : front_axis (key_state true true true true false) = 0%float)
    by (vm_compute; reflexivity).
  assert (Hs : side_axis (key_state true true true true false) = 0%float)
    by (vm_compute; reflexivity).
  split; [exact Hf|]. split; [exact Hs|].
  exact (proj2 (proj2 (movement_direction_axes
                         (key_state true true true true false))) Hf Hs).
Defined.

End Direction.

(** ** The keyboard listeners *)

Section Keyboard.

Lemma flag_property_inj (f g : Flag) :
  flag_property f = flag_property g -> f = g.
Proof. destruct f, g; simpl; congruence. Qed.

Lemma initialKeys_has_flags : has_flags initialKeys.
Proof. intros []; vm_compute; eauto. Qed.

(** On a recognised key both files write the flag of that key. *)
Lemma recognised_key_insert (f : Flag) (event_key : string)
    (keys prev : gmap string bool) :
  has_flags keys ->
  Js.toLowerCase event_key = flag_key f ->
  Game.handleKeyDown keys event_key prev = <[flag_property f := true]> prev
  /\ Game.handleKeyUp keys event_key prev = <[flag_property f := false]> prev
  /\ Page.handleKeyDown event_key prev = <[flag_property f := true]> prev
  /\ Page.handleKeyUp event_key prev = <[flag_property f := false]> prev.
Proof.
  intros Hkeys Hkey.
  unfold Game.handleKeyDown, Game.handleKeyUp, Page.handleKeyDown,
    Page.handleKeyUp, Js.has_property.
  rewrite Hkey. pose proof (Hkeys f) as Hf.
  destruct f; simpl in *; try done;
    rewrite (bool_decide_eq_true_2 _ Hf); done.
Qed.

(** The listeners keep the five flags in the state object. *)
Lemma handlers_keep_flags (event_key : string) (keys prev : gmap string bool) :
  has_flags prev ->
  has_flags (Game.handleKeyDown keys event_key prev)
  /\ has_flags (Game.handleKeyUp keys event_key prev)
  /\ has_flags (Page.handleKeyDown event_key prev)
  /\ has_flags (Page.handleKeyUp event_key prev).
Proof.
  intros Hprev.
  assert (Hins : forall k b, has_flags (<[k := b]> prev)).
  { intros k b f. rewrite lookup_insert_is_Some. 
    destruct (decide (k = flag_property f)); auto. }
  unfold Game.handleKeyDown, Game.handleKeyUp, Page.handleKeyDown,
    Page.handleKeyUp.
  repeat split;
    repeat match goal with |- context [if ?c then _ else _] => destruct c end;
    auto.
Qed.

(** The guard of the keyboard hook: a key that is neither the space bar nor
    the name of a property of the state object changes nothing. *)
Lemma game_ignores_other_keys (event_key : string)
    (keys prev : gmap string bool) :
  Js.toLowerCase event_key <> " " ->
  keys !! Js.toLowerCase event_key = None ->
  Js.toLowerCase event_key ∉ Js.Object_prototype ->
  Game.handleKeyDown keys event_key prev = prev
  /\ Game.handleKeyUp keys event_key prev = prev.
Proof.
  intros Hspace Hown Hproto.
  unfold Game.handleKeyDown, Game.handleKeyUp, Js.has_property.
  destruct (String.eqb_spec (Js.toLowerCase event_key) " ") as [|_]; [done|].
  rewrite Hown, (bool_decide_eq_false_2 _ Hproto).
  rewrite bool_decide_eq_false_2 by (by intros [? ?]). done.
Qed.

(** C10.  A key-down or key-up event for a recognised key (w, s, a, d in
    either case, or the space bar) sets the flag of that key, to true on
    key-down and to false on key-up, and leaves the other four flags as they
    were, whatever the prior state; in both files. *)
Theorem recognised_key_updates_its_flag (f : Flag) (event_key : string)
    (keys prev : gmap string bool) :
  has_flags keys ->
  Js.toLowerCase event_key = flag_key f ->
  (Game.handleKeyDown keys event_key prev !! flag_property f = Some true
   /\ Game.handleKeyUp keys event_key prev !! flag_property f = Some false
   /\ Page.handleKeyDown event_key prev !! flag_property f = Some true
   /\ Page.handleKeyUp event_key prev !! flag_property f = Some false)
  /\ (forall g, g <> f ->
        Game.handleKeyDown keys event_key prev !! flag_property g
        = prev !! flag_property g
        /\ Game.handleKeyUp keys event_key prev !! flag_property g
           = prev !! flag_property g
        /\ Page.handleKeyDown event_key prev !! flag_property g
           = prev !! flag_property g
        /\ Page.handleKeyUp event_key prev !! flag_property g
           = prev !! flag_property g).
Proof.
  intros Hkeys Hkey.
  destruct (recognised_key_insert f event_key keys prev Hkeys Hkey)
    as (-> & -> & -> & ->).
  split.
  - rewrite !lookup_insert_eq. done.
  - intros g Hg.
    assert (flag_property f <> flag_property g)
      by (intros E; apply Hg; symmetry; by apply flag_property_inj).
    rewrite !lookup_insert_ne by done. done.
Qed.

(** The key W on the initial state. *)
Lemma recognised_key_updates_its_flag_W :
  has_flags initialKeys
  /\ Js.toLowerCase "W" = flag_key forward
  /\ (Game.handleKeyDown initialKeys "W" initialKeys !! "w" = Some true
      /\ Game.handleKeyUp initialKeys "W" initialKeys !! "w" = Some false
      /\ Page.handleKeyDown "W" initialKeys !! "w" = Some true
      /\ Page.handleKeyUp "W" initialKeys !! "w" = Some false).
Proof.
  split; [exact initialKeys_has_flags|]. split; [reflexivity|].
  exact (proj1 (recognised_key_updates_its_flag forward "W" initialKeys
                  initialKeys initialKeys_has_flags eq_refl)).
Defined.

(** In [src/app/page.tsx] every key other than the space bar that is not yet
    a property of the state object becomes one. *)
Lemma page_records_other_keys (event_key : string) (prev : gmap string bool) :
  Js.toLowerCase event_key <> " " ->
  prev !! Js.toLowerCase event_key = None ->
  Page.handleKeyDown event_key prev <> prev
  /\ Page.handleKeyUp event_key prev <> prev.
Proof.
  intros Hspace Hnew. unfold Page.handleKeyDown, Page.handleKeyUp.
  destruct (String.eqb_spec (Js.toLowerCase event_key) " ") as [|_]; [done|].
  split; intros H;
    apply (f_equal (fun m => m !! Js.toLowerCase event_key)) in H;
    rewrite lookup_insert_eq, Hnew in H; discriminate H.
Qed.

(** C3.  In [src/app/page.tsx] a key-down or key-up event for the
    unrecognised key x changes the state object: it gains a property x.  The
    keyboard hook of the other file leaves the state as it was. *)
Theorem page_records_unrecognised_key :
  Page.handleKeyDown "x" initialKeys = <["x" := true]> initialKeys
  /\ Page.handleKeyDown "x" initialKeys <> initialKeys
  /\ Page.handleKeyUp "x" initialKeys = <["x" := false]> initialKeys
  /\ Page.handleKeyUp "x" initialKeys <> initialKeys
  /\ Game.handleKeyDown initialKeys "x" initialKeys = initialKeys
  /\ Game.handleKeyUp initialKeys "x" initialKeys = initialKeys.
Proof.
  repeat split; try reflexivity;
    intros H; apply (f_equal (fun m => m !! "x")) in H; vm_compute in H;
    discriminate H.
Qed.

(** Every state a running scene reaches carries the five flags. *)
Lemma run_keeps_flags (M : Js.Math) (C : Scene.Component)
    (events : list Scene.Event) :
  C = Scene.game \/ C = Scene.page ->
  forall σ, has_flags (Scene.keys σ) ->
            has_flags (Scene.keys (Scene.run M C events σ)).
Proof.
  intros HC. induction events as [|e events IH]; intros σ Hσ; [done|].
  unfold Scene.run in *. simpl. apply IH.
  destruct (handlers_keep_flags
              match e with Scene.KeyDown k | Scene.KeyUp k => k | _ => "" end
              (Scene.keys σ) (Scene.keys σ) Hσ) as (H1 & H2 & H3 & H4).
  destruct σ as [keys [[[p0 p1] p2] vel] camera api].
  destruct HC as [-> | ->]; destruct e; simpl in *; assumption.
Qed.

End Keyboard.

(** ** The subscriptions *)

Section Subscriptions.

(** The hook file releases on teardown the two subscriptions it took. *)
Lemma game_releases_subscriptions (api : Cannon.Api) :
  let n := Cannon.incrementingId api in
  let mounted := (React.mount Game.effects api).1 in
  let torn_down := React.lifetime Game.effects api in
  Cannon.subscriptions mounted !! n = Some Cannon.position
  /\ Cannon.subscriptions mounted !! S n = Some Cannon.velocity
  /\ Cannon.subscriptions torn_down !! n = None
  /\ Cannon.subscriptions torn_down !! S n = None
  /\ (forall id, id <> n -> id <> S n ->
        Cannon.subscriptions torn_down !! id = Cannon.subscriptions api !! id).
Proof.
  destruct api as [n subs commands]. simpl.
  repeat split.
  - rewrite lookup_insert_ne by lia. apply lookup_insert_eq.
  - apply lookup_insert_eq.
  - rewrite lookup_delete_ne by lia. apply lookup_delete_eq.
  - apply lookup_delete_eq.
  - intros id H1 H2.
    rewrite !lookup_delete_ne, !lookup_insert_ne by lia. done.
Qed.

(** [src/app/page.tsx] keeps on teardown the two subscriptions it took. *)
Lemma page_keeps_subscriptions (api : Cannon.Api) :
  let n := Cannon.incrementingId api in
  Cannon.subscriptions (React.lifetime Page.effects api)
  = <[S n := Cannon.velocity]> (<[n := Cannon.position]> (Cannon.subscriptions api)).
Proof. destruct api as [n subs commands]. reflexivity. Qed.

(** C8.  In [src/app/page.tsx] the position and velocity subscriptions taken
    when the player is created are still registered after it is torn down;
    the other file releases both. *)
Theorem page_subscriptions_outlive_player :
  Cannon.subscriptions (React.mount Page.effects api0).1
  = <[1 := Cannon.velocity]> (<[0 := Cannon.position]> ∅)
  /\ Cannon.subscriptions (React.lifetime Page.effects api0)
     = <[1 := Cannon.velocity]> (<[0 := Cannon.position]> ∅)
  /\ Cannon.subscriptions (React.lifetime Game.effects api0) = ∅.
Proof. repeat split; vm_compute; reflexivity. Qed.

End Subscriptions.

(** ** The frame callback *)

Section Frame.

Import THREE.
Local Open Scope float_scope.

Variable M : Js.Math.

Lemma run_snoc (C : Scene.Component) (events : list Scene.Event)
    (e : Scene.Event) (σ : Scene.State) :
  Scene.run M C (events ++ [e]) σ = Scene.step M C (Scene.run M C events σ) e.
Proof. unfold Scene.run. by rewrite foldl_app. Qed.

Lemma identity_quaternion (order : EulerOrder) :
  Quaternion.setFromEuler M (identity_rotation order) = Quaternion.mk 0 0 0 1.
Proof.
  unfold Quaternion.setFromEuler, identity_rotation. simpl.
  change (0 / 2) with 0. rewrite Js.cos_zero, Js.sin_zero.
  destruct order; vm_compute; reflexivity.
Qed.

(** C4.  After any run of events, the movement command of the next frame
    carries as its vertical component the vertical velocity the physics
    engine reported last (the cached value when it reported none), whatever
    the keys; in both files. *)
Theorem movement_keeps_reported_vertical_velocity
    (events : list Scene.Event) (σ : Scene.State) :
  Cannon.at1 <$> head (Scene.frame_commands M Scene.game
                         (Scene.run M Scene.game events σ))
  = Some (Cannon.at1 (Scene.last_velocity events
                        (velocity_current (Scene.refs σ))))
  /\ Cannon.at1 <$> head (Scene.frame_commands M Scene.page
                            (Scene.run M Scene.page events σ))
     = Some (Cannon.at1 (Scene.last_velocity events
                           (velocity_current (Scene.refs σ)))).
Proof.
  rewrite page_frame_commands, !game_frame_commands. simpl.
  unfold movement_command. simpl.
  rewrite !run_refs by auto. done.
Qed.

(** C6.  After any run of events followed by a frame, the camera position
    is, component for component, the position the physics engine reported
    last (the cached value when it reported none), whatever the keys; in both
    files. *)
Theorem camera_follows_reported_position
    (events : list Scene.Event) (σ : Scene.State) :
  Camera.position (Scene.camera (Scene.run M Scene.game
                                   (events ++ [Scene.Frame]) σ))
  = vector_of (Scene.last_position events
                 (position_current (Scene.refs σ)))
  /\ Camera.position (Scene.camera (Scene.run M Scene.page
                                      (events ++ [Scene.Frame]) σ))
     = vector_of (Scene.last_position events
                    (position_current (Scene.refs σ))).
Proof.
  rewrite !run_snoc, !frame_camera, !run_refs by auto. done.
Qed.

(** C5.  With the jump key pressed: when the absolute value of the cached
    vertical velocity is below 0.1, the last command of the frame has the
    vertical component 5; when it is at least 0.1, the frame posts the
    movement command alone, whose vertical component is the cached one. *)
Theorem jump_needs_grounded (σ : Scene.State) :
  Scene.keys σ !! "space" = Some true ->
  ((abs (Cannon.at1 (velocity_current (Scene.refs σ))) <? 0.1) = true ->
     Cannon.at1 <$> last (Scene.frame_commands M Scene.game σ) = Some 5
     /\ Cannon.at1 <$> last (Scene.frame_commands M Scene.page σ) = Some 5)
  /\ ((0.1 <=? abs (Cannon.at1 (velocity_current (Scene.refs σ)))) = true ->
        Cannon.at1 <$> Scene.frame_commands M Scene.game σ
        = [Cannon.at1 (velocity_current (Scene.refs σ))]
        /\ Cannon.at1 <$> Scene.frame_commands M Scene.page σ
           = [Cannon.at1 (velocity_current (Scene.refs σ))]).
Proof.
  intros Hspace. rewrite page_frame_commands, game_frame_commands, Hspace.
  split.
  - intros ->. done.
  - intros Hair. rewrite (leb_not_ltb _ _ Hair). done.
Qed.

(** C2 (amended).  With the jump key pressed and the grounded heuristic
    holding, the frame posts the movement command and then the jump command,
    whose vertical component is the jump force 5 and whose x and z are those
    of the velocity the physics engine reported last. *)
Theorem jump_command_from_reported_velocity (σ : Scene.State) :
  Scene.keys σ !! "space" = Some true ->
  (abs (Cannon.at1 (velocity_current (Scene.refs σ))) <? 0.1) = true ->
  Scene.frame_commands M Scene.game σ
  = [ movement_command M (Scene.keys σ) (Scene.refs σ) (Scene.camera σ);
      (Cannon.at0 (velocity_current (Scene.refs σ)), 5,
       Cannon.at2 (velocity_current (Scene.refs σ))) ]
  /\ Scene.frame_commands M Scene.page σ
     = [ movement_command M (Scene.keys σ) (Scene.refs σ) (Scene.camera σ);
         (Cannon.at0 (velocity_current (Scene.refs σ)), 5,
          Cannon.at2 (velocity_current (Scene.refs σ))) ].
Proof.
  intros Hspace Hground.
  rewrite page_frame_commands, game_frame_commands, Hspace, Hground. done.
Qed.

(** C7.  With no movement key pressed and a camera orientation whose
    quaternion is finite, both axis values are zero, normalising the
    zero-length direction yields the zero vector, and the x and z of the
    movement command are both zero. *)
Theorem no_keys_no_horizontal_velocity (σ : Scene.State) :
  Scene.keys σ !! "w" = Some false ->
  Scene.keys σ !! "s" = Some false ->
  Scene.keys σ !! "a" = Some false ->
  Scene.keys σ !! "d" = Some false ->
  Quaternion.finite
    (Quaternion.setFromEuler M (Camera.rotation (Scene.camera σ))) = true ->
  (front_axis (Scene.keys σ) = 0 /\ side_axis (Scene.keys σ) = 0)
  /\ (Game.movement_direction (Scene.keys σ) = Vector3.mk 0 0 0
      /\ Page.movement_direction (Scene.keys σ) = Vector3.mk 0 0 0)
  /\ head (Scene.frame_commands M Scene.game σ)
     = Some (0, Cannon.at1 (velocity_current (Scene.refs σ)), 0)
  /\ head (Scene.frame_commands M Scene.page σ)
     = Some (0, Cannon.at1 (velocity_current (Scene.refs σ)), 0).
Proof.
  intros Hw Hs Ha Hd Hq.
  assert (Hdir : Game.movement_direction (Scene.keys σ) = Vector3.mk 0 0 0).
  { unfold Game.movement_direction. rewrite Hw, Hs, Ha, Hd.
    vm_compute. reflexivity. }
  split; [|split; [|]].
  - unfold front_axis, side_axis. rewrite Hw, Hs, Ha, Hd.
    split; vm_compute; reflexivity.
  - split; exact Hdir.
  - rewrite page_frame_commands, game_frame_commands. simpl.
    unfold movement_command. rewrite Hdir.
    change (Vector3.multiplyScalar (Vector3.mk 0 0 0) 5) with (Vector3.mk 0 0 0).
    unfold Vector3.applyEuler. rewrite (rotate_zero _ Hq). done.
Qed.

(** C9.  With the forward key alone among the movement keys and the camera
    unrotated, the direction is (0, 0, -1) scaled by the move speed 5, that
    is (0, 0, -5), and the movement command has x = 0 and z = -5. *)
Theorem forward_alone_unrotated (order : EulerOrder) (space : bool)
    (refs : Refs) (position : Vector3.t) (api : Cannon.Api) :
  Vector3.applyEuler M
    (Vector3.multiplyScalar
       (Game.movement_direction (key_state true false false false space))
       Game.PLAYER_CONFIG.moveSpeed)
    (identity_rotation order)
  = Vector3.multiplyScalar (Vector3.mk 0 0 (-1)) 5
  /\ Vector3.multiplyScalar (Vector3.mk 0 0 (-1)) 5 = Vector3.mk 0 0 (-5)
  /\ head (Scene.frame_commands M Scene.game
             (Scene.mkState (key_state true false false false space) refs
                (Camera.mk position (identity_rotation order)) api))
     = Some (0, Cannon.at1 (velocity_current refs), -5)
  /\ head (Scene.frame_commands M Scene.page
             (Scene.mkState (key_state true false false false space) refs
                (Camera.mk position (identity_rotation order)) api))
     = Some (0, Cannon.at1 (velocity_current refs), -5).
Proof.
  assert (Hdir : Vector3.applyEuler M
            (Vector3.multiplyScalar
               (Game.movement_direction (key_state true false false false space)) 5)
            (identity_rotation order) = Vector3.mk 0 0 (-5)).
  { unfold Vector3.applyEuler. rewrite identity_quaternion.
    vm_compute. reflexivity. }
  split; [exact Hdir|]. split; [vm_compute; reflexivity|].
  rewrite page_frame_commands, game_frame_commands. simpl.
  unfold movement_command. simpl Camera.rotation. rewrite Hdir. done.
Qed.

End Frame.

(** ** The properties on concrete frames *)

Section Examples.

Import THREE.
Local Open Scope float_scope.

(** C2, as stated, fails.  Standing still with forward and jump pressed, the
    movement command is (0, 0, -5) and the jump command is (0, 5, 0): it does
    not keep the x and z just computed. *)
Lemma jump_discards_computed_movement :
  Scene.frame_commands series_math Scene.game standing_jump
  = [(0, 0, -5); (0, 5, 0)]
  /\ Scene.frame_commands series_math Scene.page standing_jump
     = [(0, 0, -5); (0, 5, 0)]
  /\ ~ jump_keeps_movement
         (Scene.frame_commands series_math Scene.game standing_jump)
  /\ ~ jump_keeps_movement
         (Scene.frame_commands series_math Scene.page standing_jump).
Proof.
  assert (E : Scene.frame_commands series_math Scene.game standing_jump
              = [(0, 0, -5); (0, 5, 0)]) by (vm_compute; reflexivity).
  rewrite page_frame_commands, E.
  repeat split; intros [_ H]; unfold Cannon.at2 in H; simpl in H;
    apply (f_equal (fun v => v =? 0)) in H; vm_compute in H; discriminate H.
Qed.

(** On the ground (vertical velocity 0.05) with velocity (1.5, 0.05, -2)
    reported: the jump command is (1.5, 5, -2). *)
Lemma jump_command_from_reported_velocity_grounded :
  (Scene.keys grounded_jump !! "space" = Some true
   /\ (abs (Cannon.at1 (velocity_current (Scene.refs grounded_jump))) <? 0.1)
      = true)
  /\ Scene.frame_commands series_math Scene.game grounded_jump
     = [ movement_command series_math (Scene.keys grounded_jump)
           (Scene.refs grounded_jump) (Scene.camera grounded_jump);
         (1.5, 5, -2) ]
  /\ Scene.frame_commands series_math Scene.page grounded_jump
     = [ movement_command series_math (Scene.keys grounded_jump)
           (Scene.refs grounded_jump) (Scene.camera grounded_jump);
         (1.5, 5, -2) ].
Proof.
  split; [split; reflexivity|].
  exact (jump_command_from_reported_velocity series_math grounded_jump
           eq_refl eq_refl).
Defined.

(** Jump pressed on the ground and jump pressed while falling at -3. *)
Lemma jump_needs_grounded_both_cases :
  ((abs (Cannon.at1 (velocity_current (Scene.refs grounded_jump))) <? 0.1)
   = true
   /\ Cannon.at1 <$> last (Scene.frame_commands series_math Scene.game
                             grounded_jump) = Some 5
   /\ Cannon.at1 <$> last (Scene.frame_commands series_math Scene.page
                             grounded_jump) = Some 5)
  /\ ((0.1 <=? abs (Cannon.at1 (velocity_current (Scene.refs falling_jump))))
      = true
      /\ Cannon.at1 <$> Scene.frame_commands series_math Scene.game
                          falling_jump = [-3]
      /\ Cannon.at1 <$> Scene.frame_commands series_math Scene.page
                          falling_jump = [-3]).
Proof.
  split; (split; [reflexivity|]).
  - exact (proj1 (jump_needs_grounded series_math grounded_jump eq_refl)
             eq_refl).
  - exact (proj2 (jump_needs_grounded series_math falling_jump eq_refl)
             eq_refl).
Defined.

(** Every key released while falling, the camera turned. *)
Lemma no_keys_no_horizontal_velocity_falling :
  Quaternion.finite
    (Quaternion.setFromEuler series_math
       (Camera.rotation (Scene.camera falling_idle))) = true
  /\ head (Scene.frame_commands series_math Scene.game falling_idle)
     = Some (0, -1.2, 0)
  /\ head (Scene.frame_commands series_math Scene.page falling_idle)
     = Some (0, -1.2, 0).
Proof.
  split; [reflexivity|].
  exact (proj2 (proj2 (no_keys_no_horizontal_velocity series_math falling_idle
                         eq_refl eq_refl eq_refl eq_refl eq_refl))).
Defined.

End Examples.

(** * Further properties *)

(** ** The keyboard listeners, event by event *)

Section KeyboardMore.

(** X1.  Key repeat: a second key-down (or key-up) for the same key changes
    nothing more, in both files. *)
Theorem key_repeat_idempotent (event_key : string)
    (keys prev : gmap string bool) :
  Game.handleKeyDown keys event_key (Game.handleKeyDown keys event_key prev)
  = Game.handleKeyDown keys event_key prev
  /\ Game.handleKeyUp keys event_key (Game.handleKeyUp keys event_key prev)
     = Game.handleKeyUp keys event_key prev
  /\ Page.handleKeyDown event_key (Page.handleKeyDown event_key prev)
     = Page.handleKeyDown event_key prev
  /\ Page.handleKeyUp event_key (Page.handleKeyUp event_key prev)
     = Page.handleKeyUp event_key prev.
Proof.
  unfold Game.handleKeyDown, Game.handleKeyUp, Page.handleKeyDown,
    Page.handleKeyUp.
  destruct (String.eqb (Js.toLowerCase event_key) " ");
    [|destruct (Js.has_property (Js.toLowerCase event_key) keys)];
    rewrite ?insert_insert_eq; done.
Qed.

(** X2.  Press and release: a recognised key pressed and released on a state in
    which its flag was false gives the state back, in both files. *)
Theorem press_release_restores (f : Flag) (event_key : string)
    (keys prev : gmap string bool) :
  has_flags keys ->
  Js.toLowerCase event_key = flag_key f ->
  prev !! flag_property f = Some false ->
  Game.handleKeyUp keys event_key (Game.handleKeyDown keys event_key prev) = prev
  /\ Page.handleKeyUp event_key (Page.handleKeyDown event_key prev) = prev.
Proof.
  intros Hkeys Hkey Hprev.
  destruct (recognised_key_insert f event_key keys
              (<[flag_property f := true]> prev) Hkeys Hkey) as (_ & Hgu & _ & Hpu).
  destruct (recognised_key_insert f event_key keys prev Hkeys Hkey)
    as (-> & _ & -> & _).
  rewrite Hgu, Hpu, insert_insert_eq, insert_id by done. done.
Qed.

Lemma press_release_restores_space :
  has_flags initialKeys
  /\ Js.toLowerCase " " = flag_key jump
  /\ initialKeys !! flag_property jump = Some false
  /\ Game.handleKeyUp initialKeys " " (Game.handleKeyDown initialKeys " " initialKeys)
     = initialKeys
  /\ Page.handleKeyUp " " (Page.handleKeyDown " " initialKeys) = initialKeys.
Proof.
  split; [exact initialKeys_has_flags|]. split; [reflexivity|].
  split; [reflexivity|].
  exact (press_release_restores jump " " initialKeys initialKeys
           initialKeys_has_flags eq_refl eq_refl).
Defined.





End KeyboardMore.

(** ** The keyboard listeners over a run of events *)

Section KeyboardRuns.

Variable M : Js.Math.

Lemma flag_key_not_property_of_other (f g : Flag) :
  flag_key f = flag_property g -> f = g.
Proof. destruct f, g; simpl; congruence. Qed.

Lemma flag_key_inj (f g : Flag) : flag_key f = flag_key g -> f = g.
Proof. destruct f, g; simpl; congruence. Qed.

(** What one listener call does to the flag [f]. *)
Lemma handlers_flag (f : Flag) (event_key : string) (keys : gmap string bool) :
  has_flags keys ->
  Game.handleKeyDown keys event_key keys !! flag_property f
  = (if drives f event_key then Some true else keys !! flag_property f)
  /\ Game.handleKeyUp keys event_key keys !! flag_property f
     = (if drives f event_key then Some false else keys !! flag_property f)
  /\ Page.handleKeyDown event_key keys !! flag_property f
     = (if drives f event_key then Some true else keys !! flag_property f)
  /\ Page.handleKeyUp event_key keys !! flag_property f
     = (if drives f event_key then Some false else keys !! flag_property f).
Proof.
  intros Hkeys.
  unfold Game.handleKeyDown, Game.handleKeyUp, Page.handleKeyDown,
    Page.handleKeyUp, drives, Js.has_property.
  set (key := Js.toLowerCase event_key).
  destruct (String.eqb_spec key " ") as [Hsp|Hsp].
  - rewrite Hsp. destruct f; simpl; rewrite ?lookup_insert_eq; try done;
      rewrite !lookup_insert_ne by done; done.
  - destruct (decide (key = flag_property f)) as [Hp|Hp].
    + rewrite (bool_decide_eq_true_2 (key = flag_property f) Hp), orb_true_r.
      rewrite (bool_decide_eq_true_2 (is_Some (keys !! key)))
        by (rewrite Hp; apply Hkeys).
      simpl. rewrite Hp, !lookup_insert_eq. done.
    + rewrite (bool_decide_eq_false_2 (key = flag_property f) Hp), orb_false_r.
      assert (Hk : bool_decide (key = flag_key f) = false).
      { apply bool_decide_eq_false_2. destruct f; simpl in *; congruence. }
      rewrite Hk.
      destruct (bool_decide (is_Some (keys !! key))
                || bool_decide (key ∈ Js.Object_prototype));
        rewrite ?lookup_insert_ne by done; done.
Qed.

Lemma step_flag (C : Scene.Component) (f : Flag) (σ : Scene.State)
    (e : Scene.Event) :
  C = Scene.game \/ C = Scene.page ->
  has_flags (Scene.keys σ) ->
  Scene.keys (Scene.step M C σ e) !! flag_property f
  = last_key_event f [e] (Scene.keys σ !! flag_property f).
Proof.
  intros HC Hσ.
  destruct σ as [keys [[[p0 p1] p2] vel] camera api]. simpl in Hσ.
  destruct (handlers_flag f match e with
                            | Scene.KeyDown k | Scene.KeyUp k => k
                            | _ => ""
                            end keys Hσ) as (H1 & H2 & H3 & H4).
  destruct HC as [-> | ->]; destruct e; simpl; done.
Qed.

Lemma step_keeps_flags (C : Scene.Component) (σ : Scene.State) (e : Scene.Event) :
  C = Scene.game \/ C = Scene.page ->
  has_flags (Scene.keys σ) -> has_flags (Scene.keys (Scene.step M C σ e)).
Proof.
  intros HC Hσ. apply (run_keeps_flags M C [e] HC σ Hσ).
Qed.

(** X5.  Each flag holds what the last key event for its key said: true after a
    key-down, false after a key-up, its old value when the run has no event
    for that key; in both files. *)
Theorem flag_follows_last_key_event (f : Flag) (events : list Scene.Event)
    (σ : Scene.State) :
  has_flags (Scene.keys σ) ->
  Scene.keys (Scene.run M Scene.game events σ) !! flag_property f
  = last_key_event f events (Scene.keys σ !! flag_property f)
  /\ Scene.keys (Scene.run M Scene.page events σ) !! flag_property f
     = last_key_event f events (Scene.keys σ !! flag_property f).
Proof.
  assert (G : forall C, C = Scene.game \/ C = Scene.page ->
            forall σ', has_flags (Scene.keys σ') ->
              Scene.keys (Scene.run M C events σ') !! flag_property f
              = last_key_event f events (Scene.keys σ' !! flag_property f)).
  { intros C HC. induction events as [|e rest IH]; intros σ' Hσ'; [done|].
    unfold Scene.run, last_key_event in *. simpl.
    rewrite IH by (by apply step_keeps_flags).
    by rewrite step_flag. }
  intros Hσ. split; apply G; auto.
Qed.

End KeyboardRuns.

(** ** The shape of the state object *)

Section StateShape.

Variable M : Js.Math.

Lemma game_step_dom (σ : Scene.State) (e : Scene.Event) :
  has_flags (Scene.keys σ) ->
  inherited_key e = false ->
  dom (Scene.keys (Scene.step M Scene.game σ e)) = dom (Scene.keys σ).
Proof.
  intros Hσ He.
  destruct σ as [keys [[[p0 p1] p2] vel] camera api]. simpl in Hσ.
  assert (Hins : forall key b,
            Js.toLowerCase key ∉ Js.Object_prototype ->
            dom (if String.eqb (Js.toLowerCase key) " "
                 then <["space" := b]> keys
                 else if Js.has_property (Js.toLowerCase key) keys
                      then <[Js.toLowerCase key := b]> keys else keys)
            = dom keys).
  { intros key b Hproto. unfold Js.has_property.
    rewrite (bool_decide_eq_false_2 _ Hproto), orb_false_r.
    destruct (String.eqb (Js.toLowerCase key) " ").
    - apply dom_insert_lookup_L, (Hσ jump).
    - case_bool_decide as Hown; [|done].
      by apply dom_insert_lookup_L. }
  destruct e; simpl in *; try done;
    apply bool_decide_eq_false in He; by apply Hins.
Qed.

(** X6.  The keyboard hook keeps the state object in shape: over any run of events
    whose keys are not names inherited from [Object.prototype], the state has
    the same properties at the end as at the start. *)
Theorem game_state_keeps_its_properties (events : list Scene.Event)
    (σ : Scene.State) :
  has_flags (Scene.keys σ) ->
  Forall (fun e => inherited_key e = false) events ->
  dom (Scene.keys (Scene.run M Scene.game events σ)) = dom (Scene.keys σ).
Proof.
  intros Hσ Hev. revert σ Hσ.
  induction Hev as [|e rest He Hrest IH]; intros σ Hσ; [done|].
  unfold Scene.run in *. simpl.
  rewrite IH by (apply (run_keeps_flags M Scene.game [e]); auto).
  by apply game_step_dom.
Qed.

(** X7.  The guard of the keyboard hook is [key in keys]: a key whose lower-cased
    name is inherited from [Object.prototype] passes it and is written into
    the state object. *)
Theorem game_guard_admits_inherited_names (event_key : string)
    (keys prev : gmap string bool) :
  Js.toLowerCase event_key ∈ Js.Object_prototype ->
  Game.handleKeyDown keys event_key prev
  = <[Js.toLowerCase event_key := true]> prev
  /\ Game.handleKeyUp keys event_key prev
     = <[Js.toLowerCase event_key := false]> prev.
Proof.
  intros Hin. unfold Game.handleKeyDown, Game.handleKeyUp, Js.has_property.
  rewrite (bool_decide_eq_true_2 _ Hin), orb_true_r.
  destruct (String.eqb_spec (Js.toLowerCase event_key) " ") as [E|_]; [|done].
  rewrite E in Hin. exfalso. revert Hin.
  apply (bool_decide_unpack _). vm_compute. exact I.
Qed.




End StateShape.

(** ** The grounded test and the direction *)

Section Grounded.

Import THREE.
Local Open Scope float_scope.

Lemma abs_ltb_iff_between (x c : float) (m : positive) (e : Z) :
  Prim2SF c = S754_finite false m e ->
  (abs x <? c) = (-c <? x) && (x <? c).
Proof.
  intros Hc. rewrite !ltb_spec, abs_spec, opp_spec, Hc. unfold SFltb.
  destruct (Prim2SF x) as [s|s| |s mx ex]; simpl.
  - destruct s; reflexivity.
  - destruct s; reflexivity.
  - reflexivity.
  - destruct s; simpl.
    + rewrite (Z.compare_antisym e ex).
      destruct (e ?= ex)%Z; simpl; try reflexivity.
      change (PosDef.Pos.compare_cont Eq mx m) with (Pos.compare mx m).
      change (PosDef.Pos.compare_cont Eq m mx) with (Pos.compare m mx).
      rewrite (Pos.compare_antisym m mx).
      destruct (m ?= mx)%positive; reflexivity.
    + destruct (ex ?= e)%Z; reflexivity.
Qed.

(** X9.  The grounded test holds exactly for a cached vertical velocity strictly
    between -0.1 and 0.1: it fails at the two bounds, beyond them, and for a
    velocity that is not a number. *)
Theorem grounded_iff_within_threshold (refs : Refs) :
  Game.isGrounded refs
  = (-0.1 <? Cannon.at1 (velocity_current refs))
    && (Cannon.at1 (velocity_current refs) <? 0.1).
Proof.
  unfold Game.isGrounded, Game.PLAYER_CONFIG.jumpThreshold.
  eapply abs_ltb_iff_between. vm_compute. reflexivity.
Qed.

Lemma grounded_at_the_bounds :
  Game.isGrounded (mkRefs (0, 0, 0) (0, 0.1, 0)) = false
  /\ Game.isGrounded (mkRefs (0, 0, 0) (0, -0.1, 0)) = false
  /\ Game.isGrounded (mkRefs (0, 0, 0) (0, next_down 0.1, 0)) = true
  /\ Game.isGrounded (mkRefs (0, 0, 0) (0, nan, 0)) = false.
Proof. repeat split; reflexivity. Qed.

Ltac flags_cases keys Hkeys :=
  let H := fresh in
  pose proof (Hkeys forward) as [? H]; simpl in H; rewrite H; clear H;
  pose proof (Hkeys backward) as [? H]; simpl in H; rewrite H; clear H;
  pose proof (Hkeys strafe_left) as [? H]; simpl in H; rewrite H; clear H;
  pose proof (Hkeys strafe_right) as [? H]; simpl in H; rewrite H; clear H.

(** X10.  In a state that carries the flags the direction has three finite
    components and a length of at most 1: moving diagonally is not faster
    than moving along one axis. *)
Theorem direction_is_finite_and_at_most_unit (keys : gmap string bool) :
  has_flags keys ->
  (is_finite (Vector3.x (Game.movement_direction keys))
   && is_finite (Vector3.y (Game.movement_direction keys))
   && is_finite (Vector3.z (Game.movement_direction keys))) = true
  /\ (Vector3.length (Game.movement_direction keys) <=? 1) = true
  /\ (Vector3.length
        (Vector3.multiplyScalar (Game.movement_direction keys)
           Game.PLAYER_CONFIG.moveSpeed) <=? 5) = true
  /\ Page.movement_direction keys = Game.movement_direction keys.
Proof.
  intros Hkeys. unfold Page.movement_direction, Game.movement_direction.
  flags_cases keys Hkeys.
  repeat match goal with b : bool |- _ => destruct b end;
    repeat split; vm_compute; reflexivity.
Qed.

Lemma direction_is_finite_and_at_most_unit_diagonal :
  has_flags (key_state true false true false false)
  /\ (Vector3.length
        (Game.movement_direction (key_state true false true false false))
      <=? 1) = true.
Proof.
  assert (H : has_flags (key_state true false true false false))
    by (intros []; vm_compute; eauto).
  split; [exact H|].
  exact (proj1 (proj2 (direction_is_finite_and_at_most_unit _ H))).
Defined.

(** X11.  A flag missing from the state object reads as [undefined]: the axis it
    belongs to, and with it the matching component of the direction, is not
    a number. *)
Theorem missing_flag_gives_nan (keys : gmap string bool) :
  (keys !! "w" = None \/ keys !! "s" = None ->
   is_nan (Vector3.z (Game.movement_direction keys)) = true)
  /\ (keys !! "a" = None \/ keys !! "d" = None ->
      is_nan (Vector3.x (Game.movement_direction keys)) = true).
Proof.
  unfold Game.movement_direction.
  split; intros [H|H]; rewrite H;
    destruct (keys !! "w") as [[]|], (keys !! "s") as [[]|],
      (keys !! "a") as [[]|], (keys !! "d") as [[]|];
    solve [discriminate H | vm_compute; reflexivity].
Qed.

Lemma missing_flag_gives_nan_empty :
  (∅ : gmap string bool) !! "w" = None
  /\ is_nan (Vector3.z (Game.movement_direction ∅)) = true
  /\ is_nan (Vector3.x (Game.movement_direction ∅)) = true.
Proof.
  split; [reflexivity|]. split.
  - exact (proj1 (missing_flag_gives_nan ∅) (or_introl eq_refl)).
  - exact (proj2 (missing_flag_gives_nan ∅) (or_introl eq_refl)).
Defined.

(** X12.  Opposing keys cancel: with forward and backward both pressed the
    direction is the one with neither pressed, and so for left and right. *)
Theorem opposing_keys_cancel (w s a d space : bool) :
  Game.movement_direction (key_state true true a d space)
  = Game.movement_direction (key_state false false a d space)
  /\ Game.movement_direction (key_state w s true true space)
     = Game.movement_direction (key_state w s false false space)
  /\ Page.movement_direction (key_state true true a d space)
     = Page.movement_direction (key_state false false a d space)
  /\ Page.movement_direction (key_state w s true true space)
     = Page.movement_direction (key_state w s false false space).
Proof. destruct w, s, a, d, space; repeat split; vm_compute; reflexivity. Qed.

End Grounded.

(** ** The command log over a run of events *)

Section CommandLog.

Variable M : Js.Math.

Lemma frame_log (C : Scene.Component) (keys : gmap string bool) (refs : Refs)
    (camera : Camera.t) (api : Cannon.Api) :
  C = Scene.game \/ C = Scene.page ->
  exists new,
    Cannon.velocity_commands (Scene.frame C M keys refs camera api).2
    = new ++ Cannon.velocity_commands api
    /\ 1 <= length new <= 2
    /\ Cannon.subscriptions (Scene.frame C M keys refs camera api).2
       = Cannon.subscriptions api
    /\ Cannon.incrementingId (Scene.frame C M keys refs camera api).2
       = Cannon.incrementingId api.
Proof.
  destruct refs as [[[p0 p1] p2] vel].
  intros [-> | ->];
    unfold Scene.frame, Scene.game, Scene.page, Game.useFrame_callback,
      Page.useFrame_callback, position_current;
    match goal with |- context [if ?c then _ else _] => destruct c end;
    first [ eexists [_; _]; split; [reflexivity|]
          | eexists [_]; split; [reflexivity|] ];
    cbn [length]; repeat split; lia.
Qed.

Lemma step_log (C : Scene.Component) (σ : Scene.State) (e : Scene.Event) :
  C = Scene.game \/ C = Scene.page ->
  exists new,
    Cannon.velocity_commands (Scene.api (Scene.step M C σ e))
    = new ++ Cannon.velocity_commands (Scene.api σ)
    /\ (if is_frame e then 1 <= length new <= 2 else new = [])
    /\ Cannon.subscriptions (Scene.api (Scene.step M C σ e))
       = Cannon.subscriptions (Scene.api σ)
    /\ Cannon.incrementingId (Scene.api (Scene.step M C σ e))
       = Cannon.incrementingId (Scene.api σ).
Proof.
  intros HC. destruct e; try (by exists []).
  destruct (frame_log C (Scene.keys σ) (Scene.refs σ) (Scene.camera σ)
              (Scene.api σ) HC) as (new & H).
  exists new. unfold Scene.step.
  destruct (Scene.frame C M (Scene.keys σ) (Scene.refs σ) (Scene.camera σ)
              (Scene.api σ)) as [camera' api']. exact H.
Qed.

(** X13.  Only frames post commands, each of them one or two, and nothing that was
    posted is ever dropped; no event of a run touches the subscriptions. *)
Theorem frames_post_one_or_two_commands (events : list Scene.Event)
    (σ : Scene.State) (C : Scene.Component) :
  C = Scene.game \/ C = Scene.page ->
  exists new,
    Cannon.velocity_commands (Scene.api (Scene.run M C events σ))
    = new ++ Cannon.velocity_commands (Scene.api σ)
    /\ frames events <= length new <= 2 * frames events
    /\ Cannon.subscriptions (Scene.api (Scene.run M C events σ))
       = Cannon.subscriptions (Scene.api σ)
    /\ Cannon.incrementingId (Scene.api (Scene.run M C events σ))
       = Cannon.incrementingId (Scene.api σ).
Proof.
  intros HC. revert σ. induction events as [|e rest IH]; intros σ.
  { exists []. repeat split; simpl; auto. }
  destruct (step_log C σ e HC) as (new1 & Hlog1 & Hlen1 & Hsub1 & Hid1).
  destruct (IH (Scene.step M C σ e)) as (new2 & Hlog2 & Hlen2 & Hsub2 & Hid2).
  exists (new2 ++ new1). unfold Scene.run in *. simpl.
  rewrite Hlog2, Hlog1, Hsub2, Hsub1, Hid2, Hid1, length_app, <- app_assoc.
  repeat split; try done;
    unfold frames in *; rewrite filter_cons;
    destruct e; simpl in *; subst; simpl; try lia;
    case_decide; simpl; try done; lia.
Qed.

End CommandLog.

(** ** Effects that run again *)

Section Reruns.

Lemma fresh_ids_unused (api : Cannon.Api) (id : nat) :
  fresh_ids api -> Cannon.incrementingId api <= id ->
  Cannon.subscriptions api !! id = None.
Proof.
  intros Hfresh Hid. destruct (Cannon.subscriptions api !! id) eqn:E; [|done].
  specialize (Hfresh id (mk_is_Some _ _ E)). lia.
Qed.

(** One run of the subscribing effect of the keyboard-hook file. *)
Lemma game_subscribe_run (c : nat) (subs : gmap nat Cannon.Topic)
    (commands : list Cannon.Triplet) :
  subs !! c = None -> subs !! S c = None ->
  Cannon.subscriptions (Game.subscribe_effect (Cannon.mk c subs commands)).1
  = <[S c := Cannon.velocity]> (<[c := Cannon.position]> subs)
  /\ Hooks.teardown (Game.subscribe_effect (Cannon.mk c subs commands))
     = Cannon.mk (S (S c)) subs commands.
Proof.
  intros Hc HSc. split; [reflexivity|].
  unfold Hooks.teardown. simpl. unfold Cannon.unsubscribe. simpl. f_equal.
  rewrite (delete_insert_ne _ c (S c)) by lia.
  rewrite !delete_insert_eq, (delete_id subs c) by done.
  by rewrite delete_id.
Qed.

(** X14.  In the keyboard-hook file the subscribing effect can run again any number
    of times: the player then holds the last pair of subscriptions only, and
    teardown leaves the registry as it was before the player. *)
Theorem game_resubscribing_holds_one_pair (n : nat) (api : Cannon.Api) :
  fresh_ids api ->
  Cannon.subscriptions (Hooks.commits Game.subscribe_effect n api).1
  = <[S (Cannon.incrementingId api + 2 * n) := Cannon.velocity]>
      (<[Cannon.incrementingId api + 2 * n := Cannon.position]>
         (Cannon.subscriptions api))
  /\ Cannon.subscriptions
       (Hooks.teardown (Hooks.commits Game.subscribe_effect n api))
     = Cannon.subscriptions api.
Proof.
  intros Hfresh. destruct api as [c subs commands]. simpl.
  assert (Hfree : forall id, c <= id -> subs !! id = None)
    by (intros id Hid; by apply (fresh_ids_unused _ id Hfresh)).
  assert (G : Cannon.subscriptions
                (Hooks.commits Game.subscribe_effect n (Cannon.mk c subs commands)).1
              = <[S (c + 2 * n) := Cannon.velocity]>
                  (<[c + 2 * n := Cannon.position]> subs)
              /\ Hooks.teardown
                   (Hooks.commits Game.subscribe_effect n (Cannon.mk c subs commands))
                 = Cannon.mk (S (S (c + 2 * n))) subs commands).
  { induction n as [|n [_ IH]].
    - replace (c + 2 * 0) with c by lia.
      apply game_subscribe_run; apply Hfree; lia.
    - unfold Hooks.commits in *. simpl Nat.iter. unfold Hooks.commit at 1 3.
      rewrite IH. replace (c + 2 * S n) with (S (S (c + 2 * n))) by lia.
      apply game_subscribe_run; apply Hfree; lia. }
  destruct G as [G1 G2]. split; [exact G1|]. by rewrite G2.
Qed.


Lemma not_elem_filter_ne {A : Type} `{EqDecision A} (x : A) (l : list A) :
  x ∉ l -> filter (fun y => y <> x) l = l.
Proof.
  induction l as [|y l IH]; [done|]. intros Hx.
  apply not_elem_of_cons in Hx as [Hne Hx].
  rewrite filter_cons_True by done. by rewrite IH.
Qed.

Lemma filter_ne_snoc_same {A : Type} `{EqDecision A} (x : A) (l : list A) :
  x ∉ l -> filter (fun y => y <> x) (l ++ [x]) = l.
Proof.
  intros Hx. rewrite filter_app, (not_elem_filter_ne x l Hx).
  rewrite filter_cons_False by (intros H; by apply H).
  by rewrite filter_nil, app_nil_r.
Qed.

Lemma filter_ne_snoc_other {A : Type} `{EqDecision A} (x y : A) (l : list A) :
  y <> x ->
  filter (fun z => z <> x) (l ++ [y]) = filter (fun z => z <> x) l ++ [y].
Proof.
  intros Hy. rewrite filter_app. f_equal.
  by rewrite filter_cons_True, filter_nil.
Qed.

(** One run of the keyboard effect. *)
Lemma keyboard_run (c : nat) (registered : list (string * nat)) :
  (forall type listener, (type, listener) ∈ registered -> listener < c) ->
  Window.listeners (keyboard_effect (Window.mk c registered)).1
  = registered ++ [("keydown", c); ("keyup", S c)]
  /\ Hooks.teardown (keyboard_effect (Window.mk c registered))
     = Window.mk (S (S c)) registered.
Proof.
  intros Hfresh.
  assert (Hd : ("keydown", c) ∉ registered)
    by (intros H; apply Hfresh in H; lia).
  assert (Hu : ("keyup", S c) ∉ registered)
    by (intros H; apply Hfresh in H; lia).
  assert (Hu' : ("keyup", S c) ∉ registered ++ [("keydown", c)]).
  { rewrite elem_of_app, list_elem_of_singleton. intros [H|H]; [done|].
    discriminate H. }
  unfold keyboard_effect, Hooks.teardown, Window.addEventListener,
    Window.removeEventListener. simpl.
  rewrite (bool_decide_eq_false_2 _ Hd). simpl.
  rewrite (bool_decide_eq_false_2 _ Hu'). simpl.
  split; [by rewrite <- app_assoc|]. f_equal.
  rewrite (filter_ne_snoc_other ("keydown", c) ("keyup", S c)) by discriminate.
  rewrite (filter_ne_snoc_same ("keydown", c)) by done.
  by apply filter_ne_snoc_same.
Qed.

(** X16.  The key listeners: after the first run of the effect and any number of
    further runs the window holds one key-down and one key-up listener of the
    component, those of the last run, behind the listeners it held before;
    teardown removes them and leaves the others. *)
Theorem keyboard_listeners_one_pair (n : nat) (w : Window.t) :
  Window.fresh w ->
  Window.listeners (Hooks.commits keyboard_effect n w).1
  = Window.listeners w
    ++ [("keydown", Window.functions w + 2 * n);
        ("keyup", S (Window.functions w + 2 * n))]
  /\ Window.listeners (Hooks.teardown (Hooks.commits keyboard_effect n w))
     = Window.listeners w.
Proof.
  intros Hfresh. destruct w as [c registered].
  unfold Window.fresh in Hfresh. simpl in *.
  assert (G : Window.listeners
                (Hooks.commits keyboard_effect n (Window.mk c registered)).1
              = registered ++ [("keydown", c + 2 * n); ("keyup", S (c + 2 * n))]
              /\ Hooks.teardown
                   (Hooks.commits keyboard_effect n (Window.mk c registered))
                 = Window.mk (S (S (c + 2 * n))) registered).
  { induction n as [|n [_ IH]].
    - replace (c + 2 * 0) with c by lia. by apply keyboard_run.
    - unfold Hooks.commits in *. simpl Nat.iter. unfold Hooks.commit at 1 3.
      rewrite IH. replace (c + 2 * S n) with (S (S (c + 2 * n))) by lia.
      apply keyboard_run. intros type listener H.
      specialize (Hfresh type listener H). lia. }
  destruct G as [G1 G2]. split; [exact G1|]. by rewrite G2.
Qed.

End Reruns.

(** ** The scenery *)

Section SceneryFacts.

Import Scenery.

Lemma imap_keys_NoDup {A B : Type} (prefix : string) (f : A -> B)
    (l : list A) :
  NoDup (imap (fun i x => (prefix +:+ pretty i, f x)) l).*1.
Proof.
  apply NoDup_alt. intros i j key Hi Hj.
  rewrite list_lookup_fmap, list_lookup_imap in Hi, Hj.
  destruct (l !! i) as [x|]; [|done]. destruct (l !! j) as [y|]; [|done].
  simpl in *. injection Hi as Hi. injection Hj as Hj. subst key.
  apply (inj (String.app prefix)) in Hj. by apply (inj pretty) in Hj.
Qed.

Lemma imap_keys_prefix {A B : Type} (prefix : string) (f : A -> B)
    (l : list A) (key : string) :
  key ∈ (imap (fun i x => (prefix +:+ pretty i, f x)) l).*1 ->
  exists rest, key = prefix +:+ rest.
Proof.
  intros Hin. apply list_elem_of_fmap in Hin as [[k b] [-> Hin]].
  apply list_elem_of_lookup in Hin as [i Hi].
  rewrite list_lookup_imap in Hi. destruct (l !! i); [|done].
  injection Hi as <- _. eauto.
Qed.

(** X17.  Whatever the lists of platforms, boxes and walls, the children that
    [Environment] renders have pairwise different React keys, and there is
    one child for each descriptor. *)
Theorem environment_keys_distinct (data : EnvironmentData) :
  NoDup (Environment data).*1
  /\ length (Environment data)
     = length (platforms data) + length (boxes data) + length (walls data).
Proof.
  unfold Environment. split.
  - rewrite !fmap_app. rewrite !NoDup_app.
    repeat split; try apply imap_keys_NoDup.
    + intros key Hp Hbw. apply imap_keys_prefix in Hp as [r1 ->].
      apply elem_of_app in Hbw as [H|H];
        apply imap_keys_prefix in H as [r2 H]; discriminate H.
    + intros key Hb Hw. apply imap_keys_prefix in Hb as [r1 ->].
      apply imap_keys_prefix in Hw as [r2 H]. discriminate H.
  - rewrite !length_app, !length_imap. lia.
Qed.

End SceneryFacts.

(** ** Frames and the camera *)

Section FramesMore.

Variable M : Js.Math.

Lemma step_rotation (C : Scene.Component) (σ : Scene.State) (e : Scene.Event) :
  C = Scene.game \/ C = Scene.page ->
  Camera.rotation (Scene.camera (Scene.step M C σ e))
  = last_mouse_look [e] (Camera.rotation (Scene.camera σ)).
Proof.
  destruct σ as [keys [[[p0 p1] p2] vel] camera api].
  intros [-> | ->]; destruct e; reflexivity.
Qed.

(** X18.  The player never turns the camera: after any run of events its
    orientation is the one the mouse-look controller set last. *)
Theorem camera_orientation_is_the_mouse_look (events : list Scene.Event)
    (σ : Scene.State) :
  Camera.rotation (Scene.camera (Scene.run M Scene.game events σ))
  = last_mouse_look events (Camera.rotation (Scene.camera σ))
  /\ Camera.rotation (Scene.camera (Scene.run M Scene.page events σ))
     = last_mouse_look events (Camera.rotation (Scene.camera σ)).
Proof.
  assert (G : forall C, C = Scene.game \/ C = Scene.page -> forall σ',
            Camera.rotation (Scene.camera (Scene.run M C events σ'))
            = last_mouse_look events (Camera.rotation (Scene.camera σ'))).
  { intros C HC. induction events as [|e rest IH]; intros σ'; [done|].
    unfold Scene.run, last_mouse_look in *. simpl.
    by rewrite IH, step_rotation. }
  split; apply G; auto.
Qed.

(** X19.  A frame changes nothing that the next frame reads: two frames in a row
    post the same commands (a held jump is sent again until the engine
    reports a new velocity) and leave the camera where the first put it. *)
Theorem consecutive_frames_repeat (σ : Scene.State) :
  Scene.frame_commands M Scene.game (Scene.step M Scene.game σ Scene.Frame)
  = Scene.frame_commands M Scene.game σ
  /\ Scene.frame_commands M Scene.page (Scene.step M Scene.page σ Scene.Frame)
     = Scene.frame_commands M Scene.page σ
  /\ Scene.camera (Scene.step M Scene.game
                     (Scene.step M Scene.game σ Scene.Frame) Scene.Frame)
     = Scene.camera (Scene.step M Scene.game σ Scene.Frame)
  /\ Scene.camera (Scene.step M Scene.page
                     (Scene.step M Scene.page σ Scene.Frame) Scene.Frame)
     = Scene.camera (Scene.step M Scene.page σ Scene.Frame).
Proof.
  rewrite !page_frame_commands, !game_frame_commands.
  destruct σ as [keys [[[p0 p1] p2] vel] camera api]. repeat split.
Qed.

End FramesMore.

(** ** The further properties on concrete runs *)

Section MoreExamples.

(** Two frames with a press of the space bar between them. *)
Lemma frames_post_one_or_two_commands_game :
  (Scene.game = Scene.game \/ Scene.game = Scene.page)
  /\ exists new,
       Cannon.velocity_commands
         (Scene.api (Scene.run series_math Scene.game
                       [Scene.Frame; Scene.KeyDown " "; Scene.Frame] spawned))
       = new ++ Cannon.velocity_commands (Scene.api spawned)
       /\ 2 <= length new <= 4.
Proof.
  split; [by left|].
  destruct (frames_post_one_or_two_commands series_math
              [Scene.Frame; Scene.KeyDown " "; Scene.Frame] spawned Scene.game
              (or_introl eq_refl)) as (new & Hlog & Hlen & _).
  exists new. split; [exact Hlog|exact Hlen].
Defined.


(** W pressed, A pressed, w released: forward is false at the end. *)
Lemma flag_follows_last_key_event_wasd :
  has_flags (Scene.keys spawned)
  /\ Scene.keys (Scene.run series_math Scene.game
                   [Scene.KeyDown "W"; Scene.KeyDown "a"; Scene.KeyUp "w"]
                   spawned) !! "w" = Some false
  /\ Scene.keys (Scene.run series_math Scene.page
                   [Scene.KeyDown "W"; Scene.KeyDown "a"; Scene.KeyUp "w"]
                   spawned) !! "w" = Some false.
Proof.
  split; [exact initialKeys_has_flags|].
  exact (flag_follows_last_key_event series_math forward
           [Scene.KeyDown "W"; Scene.KeyDown "a"; Scene.KeyUp "w"] spawned
           initialKeys_has_flags).
Defined.

(** Keys of a real keyboard, recognised or not. *)
Lemma game_state_keeps_its_properties_typing :
  (has_flags (Scene.keys spawned)
   /\ Forall (fun e => inherited_key e = false)
        [Scene.KeyDown "W"; Scene.KeyDown "x"; Scene.KeyDown "Shift";
         Scene.Frame; Scene.KeyUp " "])
  /\ dom (Scene.keys (Scene.run series_math Scene.game
                        [Scene.KeyDown "W"; Scene.KeyDown "x";
                         Scene.KeyDown "Shift"; Scene.Frame; Scene.KeyUp " "]
                        spawned))
     = dom (Scene.keys spawned).
Proof.
  assert (H : Forall (fun e => inherited_key e = false)
                [Scene.KeyDown "W"; Scene.KeyDown "x"; Scene.KeyDown "Shift";
                 Scene.Frame; Scene.KeyUp " "])
    by (repeat constructor).
  split; [split; [exact initialKeys_has_flags|exact H]|].
  exact (game_state_keeps_its_properties series_math _ spawned
           initialKeys_has_flags H).
Defined.

(** The key name "constructor". *)
Lemma game_guard_admits_inherited_names_constructor :
  Js.toLowerCase "constructor" ∈ Js.Object_prototype
  /\ Game.handleKeyDown initialKeys "constructor" initialKeys
     = <["constructor" := true]> initialKeys.
Proof.
  assert (H : Js.toLowerCase "constructor" ∈ Js.Object_prototype)
    by (apply (bool_decide_unpack _); vm_compute; exact I).
  split; [exact H|].
  exact (proj1 (game_guard_admits_inherited_names "constructor" initialKeys
                  initialKeys H)).
Defined.


(** A binding that already serves another body, the effect run three times. *)
Lemma game_resubscribing_holds_one_pair_busy :
  fresh_ids busy_api
  /\ Cannon.subscriptions (Hooks.commits Game.subscribe_effect 2 busy_api).1
     = <[9 := Cannon.velocity]> (<[8 := Cannon.position]>
         (Cannon.subscriptions busy_api))
  /\ Cannon.subscriptions
       (Hooks.teardown (Hooks.commits Game.subscribe_effect 2 busy_api))
     = Cannon.subscriptions busy_api.
Proof.
  assert (H : fresh_ids busy_api).
  { intros id [topic Hid]. unfold busy_api in *. simpl in *.
    apply lookup_insert_Some in Hid as [[<- _]|[_ Hid]]; [lia|].
    by rewrite lookup_empty in Hid. }
  split; [exact H|].
  exact (game_resubscribing_holds_one_pair 2 busy_api H).
Defined.

(** A window that already has listeners, the component rendered four times. *)
Lemma keyboard_listeners_one_pair_busy :
  Window.fresh busy_window
  /\ Window.listeners (Hooks.commits keyboard_effect 3 busy_window).1
     = [("resize", 2); ("keydown", 5); ("keydown", 13); ("keyup", 14)]
  /\ Window.listeners (Hooks.teardown (Hooks.commits keyboard_effect 3 busy_window))
     = [("resize", 2); ("keydown", 5)].
Proof.
  assert (H : Window.fresh busy_window).
  { intros type listener Hin. unfold busy_window in *. simpl in *.
    apply elem_of_cons in Hin as [Hin|Hin]; [injection Hin as _ ->; lia|].
    apply list_elem_of_singleton in Hin. injection Hin as _ ->. lia. }
  split; [exact H|].
  exact (keyboard_listeners_one_pair 3 busy_window H).
Defined.

End MoreExamples.
